(** * JTAG select-line controller (gpio_control.c)

    A shallow embedding of [sw/jtag-switch/src/gpio/gpio_control.c]: the three
    file-scope variables [select0_state], [select1_state] and [initialized],
    the helper [verify_gpio_state] and the four entry points
    [gpio_control_init], [gpio_control_set_select], [gpio_control_get_select]
    and [gpio_control_toggle_select].

    The Zephyr GPIO driver is outside the repository.  The controller is
    therefore written against an interface ([GpioDriver]) giving the four
    driver calls the file makes; the statements about tracked state hold for
    every implementation of it.  Statements about pin levels are made over
    [sim_hw], an in-memory GPIO bank with fault injection.

    The callers of the controller follow it: the boot sequence of [main]
    (main.c), the [jtag] shell commands (shell_cmds.c) and the select and
    toggle endpoints (http_rest_api.c), with the C library and Zephyr's
    shell and JSON calls they make taken as parameters.

    The embedding is sequential: every entry point takes
    [gpio_control_mutex] on entry and releases it on every return, so that
    bodies never interleave; the lock itself is not represented. *)

From Stdlib Require Import String Ascii.
From Stdlib Require Import ZArith List Bool Lia.
Import ListNotations.

#[local] Open Scope Z_scope.

(** ** errno values (Zephyr's <errno.h>) *)

Definition EIO : Z := 5.
Definition ENODEV : Z := 19.
Definition EINVAL : Z := 22.

(** ** The two device-tree GPIO specifications *)

Inductive gpio_dt_spec : Type :=
| jtag_select0
| jtag_select1.

(** ** The driver interface used by the file

    Every call may change the hardware and yields the [int] (or [bool]) the C
    call returns.  [gpio_pin_configure_dt] is only ever called with
    [GPIO_OUTPUT_INACTIVE]. *)

Class GpioDriver (H : Type) : Type := {
  gpio_is_ready_dt : H -> gpio_dt_spec -> bool;
  gpio_pin_configure_dt : H -> gpio_dt_spec -> Z * H;
  gpio_pin_set_dt : H -> gpio_dt_spec -> Z -> Z * H;
  gpio_pin_get_dt : H -> gpio_dt_spec -> Z * H
}.

(** A driver call as seen from outside, with the value it returned. *)
Inductive hw_event : Type :=
| EvIsReady (spec : gpio_dt_spec) (r : bool)
| EvConfigure (spec : gpio_dt_spec) (ret : Z)
| EvPinSet (spec : gpio_dt_spec) (value : Z) (ret : Z)
| EvPinGet (spec : gpio_dt_spec) (ret : Z).

(** The pin a driver call addresses. *)
Definition event_spec (e : hw_event) : gpio_dt_spec :=
  match e with
  | EvIsReady s _ | EvConfigure s _ | EvPinSet s _ _ | EvPinGet s _ => s
  end.

(** ** State tracking: the file-scope variables *)

Record statics : Type := mkStatics {
  select0_state : bool;
  select1_state : bool;
  initialized : bool
}.

(** [static bool select0_state = false; ...] *)
Definition statics_at_boot : statics :=
  {| select0_state := false; select1_state := false; initialized := false |}.

(** [bool *state_var]: which of the two tracked variables is pointed to. *)
Inductive state_ptr : Type :=
| ptr_select0_state
| ptr_select1_state.

Definition deref (p : state_ptr) (s : statics) : bool :=
  match p with
  | ptr_select0_state => select0_state s
  | ptr_select1_state => select1_state s
  end.

Definition assign (p : state_ptr) (b : bool) (s : statics) : statics :=
  match p with
  | ptr_select0_state =>
      {| select0_state := b; select1_state := select1_state s;
         initialized := initialized s |}
  | ptr_select1_state =>
      {| select0_state := select0_state s; select1_state := b;
         initialized := initialized s |}
  end.

Definition set_initialized (b : bool) (s : statics) : statics :=
  {| select0_state := select0_state s; select1_state := select1_state s;
     initialized := b |}.

(** Valid states: 00, 01, 10; 11 is prohibited. *)
Definition both_high (s : statics) : bool :=
  select0_state s && select1_state s.

(** ** A state monad with C's [return]

    A computation either falls through to the next statement with a value
    ([Next]) or leaves the enclosing function with its result ([Return]). *)

Inductive flow (A : Type) : Type :=
| Next (a : A)
| Return (r : Z).
Arguments Next {A} a.
Arguments Return {A} r.

(** A call made by a client of the controller (boot code, shell, HTTP). *)
Inductive api_call : Type :=
| CallInit
| CallSetSelect (select_line : Z) (state : bool)
| CallGetSelect (select_line : Z) (state : option bool)
| CallToggleSelect (select_line : Z).

Section Controller.

Context {H : Type} {drv : GpioDriver H}.

(** [#ifdef CONFIG_GPIO_EMUL]: true in simulation builds. *)
Variable CONFIG_GPIO_EMUL : bool.

(** ** The world in which the controller runs

    [vars] are the file-scope variables, [dev] the hardware behind the
    driver, [log] the driver calls made so far, oldest first, and [seen]
    every pair of tracked state and hardware the execution has passed
    through, one entry after each driver call and after each assignment to
    a file-scope variable. *)

Record world : Type := mkWorld {
  vars : statics;
  dev : H;
  log : list hw_event;
  seen : list (statics * H)
}.

Definition observe (s : statics) (h : H) (l : list hw_event)
    (past : list (statics * H)) : world :=
  {| vars := s; dev := h; log := l; seen := past ++ [(s, h)] |}.

Definition M (A : Type) : Type := world -> flow A * world.

Definition pure {A} (a : A) : M A := fun w => (Next a, w).

Definition return_ {A} (r : Z) : M A := fun w => (Return r, w).

Definition bind {A B} (m : M A) (k : A -> M B) : M B :=
  fun w =>
    match m w with
    | (Next a, w') => k a w'
    | (Return r, w') => (Return r, w')
    end.

(** Running a function body: the value it returns and the world it leaves. *)
Definition call (body : M Z) (w : world) : Z * world :=
  match body w with
  | (Next r, w') => (r, w')
  | (Return r, w') => (r, w')
  end.

(** A call to a helper from inside a body: its [return] ends the helper,
    not the caller. *)
Definition invoke (body : M Z) : M Z :=
  fun w => let (r, w') := call body w in (Next r, w').

Notation "x <- m ;; k" := (bind m (fun x => k))
  (at level 61, m at next level, right associativity).
Notation "m ;; k" := (bind m (fun _ => k))
  (at level 61, right associativity).

(** Reads and writes of the file-scope variables. *)

Definition load_initialized : M bool :=
  fun w => (Next (initialized (vars w)), w).

Definition load (p : state_ptr) : M bool :=
  fun w => (Next (deref p (vars w)), w).

Definition store (p : state_ptr) (b : bool) : M unit :=
  fun w => (Next tt, observe (assign p b (vars w)) (dev w) (log w) (seen w)).

Definition store_initialized (b : bool) : M unit :=
  fun w =>
    (Next tt, observe (set_initialized b (vars w)) (dev w) (log w) (seen w)).

(** The four driver calls, each logged with its result. *)

Definition is_ready (spec : gpio_dt_spec) : M bool :=
  fun w =>
    let r := gpio_is_ready_dt (dev w) spec in
    (Next r, observe (vars w) (dev w) (log w ++ [EvIsReady spec r]) (seen w)).

Definition pin_configure (spec : gpio_dt_spec) : M Z :=
  fun w =>
    let (ret, h) := gpio_pin_configure_dt (dev w) spec in
    (Next ret, observe (vars w) h (log w ++ [EvConfigure spec ret]) (seen w)).

Definition pin_set (spec : gpio_dt_spec) (value : Z) : M Z :=
  fun w =>
    let (ret, h) := gpio_pin_set_dt (dev w) spec value in
    (Next ret,
     observe (vars w) h (log w ++ [EvPinSet spec value ret]) (seen w)).

Definition pin_get (spec : gpio_dt_spec) : M Z :=
  fun w =>
    let (ret, h) := gpio_pin_get_dt (dev w) spec in
    (Next ret, observe (vars w) h (log w ++ [EvPinGet spec ret]) (seen w)).

(** ** verify_gpio_state *)

Definition verify_gpio_state (spec : gpio_dt_spec) (expected : Z) : M Z :=
  if CONFIG_GPIO_EMUL then
    return_ 0
  else
    actual <- pin_get spec ;;
    if actual <? 0 then return_ (- EIO) else
    if negb (actual =? expected) then return_ (- EIO) else
    return_ 0.

(** ** gpio_control_init *)

Definition gpio_control_init_body : M Z :=
  init <- load_initialized ;;
  if init then return_ 0 else
  ready <- is_ready jtag_select0 ;;
  if negb ready then return_ (- ENODEV) else
  ready <- is_ready jtag_select1 ;;
  if negb ready then return_ (- ENODEV) else
  ret <- pin_configure jtag_select0 ;;
  if ret <? 0 then return_ ret else
  ret <- invoke (verify_gpio_state jtag_select0 0) ;;
  if ret <? 0 then return_ ret else
  ret <- pin_configure jtag_select1 ;;
  if ret <? 0 then return_ ret else
  ret <- invoke (verify_gpio_state jtag_select1 0) ;;
  if ret <? 0 then return_ ret else
  store ptr_select0_state false ;;
  store ptr_select1_state false ;;
  store_initialized true ;;
  return_ 0.

Definition gpio_control_init (w : world) : Z * world :=
  call gpio_control_init_body w.

(** ** gpio_control_set_select

    [select_line] is a [uint8_t]; it is kept as the integer it holds, and
    every value other than 0 and 1 takes the [default] branch. *)

(** The [switch (select_line)]: the requested line's handle and variable,
    then the other line's handle, variable and number. *)
Definition select_switch (select_line : Z)
    : M (gpio_dt_spec * state_ptr * gpio_dt_spec * state_ptr * Z) :=
  match select_line with
  | 0 => pure (jtag_select0, ptr_select0_state,
               jtag_select1, ptr_select1_state, 1)
  | 1 => pure (jtag_select1, ptr_select1_state,
               jtag_select0, ptr_select0_state, 0)
  | _ => return_ (- EINVAL)
  end.

(** The ROLLBACK block, identical after a failed write and after a failed
    verification: restore the other pin if it was cleared; the tracked
    state follows only when the driver returns exactly 0. *)
Definition rollback (other_pin_cleared : bool)
    (other_gpio_spec : gpio_dt_spec) (other_state_var : state_ptr)
    (original_other_state : bool) : M unit :=
  if other_pin_cleared then
    rollback_ret <-
      pin_set other_gpio_spec (if original_other_state then 1 else 0) ;;
    if rollback_ret =? 0 then store other_state_var original_other_state
    else pure tt
  else pure tt.

Definition gpio_control_set_select_body (select_line : Z) (state : bool)
    : M Z :=
  init <- load_initialized ;;
  if negb init then return_ (- EINVAL) else
  sel <- select_switch select_line ;;
  let '(gpio_spec, state_var, other_gpio_spec, other_state_var, other_line)
    := sel in
  (* [state == true && *other_state_var == true]: the read of the variable
     has no effect and is made up front.  Before the test
     other_pin_cleared is false and original_other_state is unassigned; it
     is read only when other_pin_cleared is true. *)
  other_now <- load other_state_var ;;
  locals <-
    (if state && other_now then
       let original_other_state := other_now in
       ret <- pin_set other_gpio_spec 0 ;;
       if ret <? 0 then return_ ret else
       ret <- invoke (verify_gpio_state other_gpio_spec 0) ;;
       if ret <? 0 then return_ ret else
       store other_state_var false ;;
       pure (true, original_other_state)
     else pure (false, false)) ;;
  let '(other_pin_cleared, original_other_state) := locals in
  ret <- pin_set gpio_spec (if state then 1 else 0) ;;
  if ret <? 0 then
    rollback other_pin_cleared other_gpio_spec other_state_var
             original_other_state ;;
    return_ ret
  else
  ret <- invoke (verify_gpio_state gpio_spec (if state then 1 else 0)) ;;
  if ret <? 0 then
    rollback other_pin_cleared other_gpio_spec other_state_var
             original_other_state ;;
    return_ ret
  else
  store state_var state ;;
  return_ 0.

Definition gpio_control_set_select (select_line : Z) (state : bool)
    (w : world) : Z * world :=
  call (gpio_control_set_select_body select_line state) w.

(** ** gpio_control_get_select

    [bool *state] is [None] for a NULL pointer and [Some b] for a pointer
    to a cell holding [b]; the second component of the result is that cell
    after the call. *)

Definition gpio_control_get_select (select_line : Z) (state : option bool)
    (w : world) : Z * option bool * world :=
  if negb (initialized (vars w))
     || match state with None => true | Some _ => false end
  then (- EINVAL, state, w)
  else
    match select_line with
    | 0 => (0, Some (select0_state (vars w)), w)
    | 1 => (0, Some (select1_state (vars w)), w)
    | _ => (- EINVAL, state, w)
    end.

(** ** gpio_control_toggle_select

    [current_state] is an unassigned local; [junk] is what it happens to
    hold before [gpio_control_get_select] writes it. *)

Definition gpio_control_toggle_select_from (junk : bool) (select_line : Z)
    (w : world) : Z * world :=
  let '(ret, current_state, w1) :=
    gpio_control_get_select select_line (Some junk) w in
  if ret <? 0 then (ret, w1)
  else
    gpio_control_set_select select_line
      (negb (match current_state with Some b => b | None => junk end)) w1.

Definition gpio_control_toggle_select (select_line : Z) (w : world)
    : Z * world :=
  gpio_control_toggle_select_from false select_line w.

(** ** Sequences of calls, one after the other *)

Definition api_step (c : api_call) (w : world) : Z * world :=
  match c with
  | CallInit => gpio_control_init w
  | CallSetSelect select_line state =>
      gpio_control_set_select select_line state w
  | CallGetSelect select_line state =>
      let '(ret, _, w') := gpio_control_get_select select_line state w in
      (ret, w')
  | CallToggleSelect select_line => gpio_control_toggle_select select_line w
  end.

(** The results of the calls, in order, and the world after the last. *)
Fixpoint run_calls (cs : list api_call) (w : world) : list Z * world :=
  match cs with
  | [] => ([], w)
  | c :: cs' =>
      let (ret, w1) := api_step c w in
      let (rets, w2) := run_calls cs' w1 in
      (ret :: rets, w2)
  end.

End Controller.

Arguments world H : clear implicits.
Arguments mkWorld {H} vars dev log seen.

(** ** A simulated GPIO bank with fault injection

    The bank holds the level each pin is driven to and two scripts, one
    consumed by the calls that drive a pin (configure, set) and one by
    readback.  A call past the end of its script works.

    - [WriteOk]: the call returns 0 and the pin takes the requested level.
    - [WriteLost]: the call returns 0 but the pin keeps its level (a silent
      driver or wiring fault, the case readback is there to catch).
    - [WriteErr e]: the call returns [-e] and the pin keeps its level.
    - [ReadOk]: readback returns the pin's level, 0 or 1.
    - [ReadErr e]: readback returns [-e]. *)

Inductive write_fault : Type :=
| WriteOk
| WriteLost
| WriteErr (errno : positive).

Inductive read_fault : Type :=
| ReadOk
| ReadErr (errno : positive).

Record sim_hw : Type := mkSim {
  ready0 : bool;
  ready1 : bool;
  level0 : bool;
  level1 : bool;
  write_plan : list write_fault;
  read_plan : list read_fault
}.

Definition sim_level (h : sim_hw) (spec : gpio_dt_spec) : bool :=
  match spec with
  | jtag_select0 => level0 h
  | jtag_select1 => level1 h
  end.

Definition next_write (h : sim_hw) : write_fault * list write_fault :=
  (hd WriteOk (write_plan h), tl (write_plan h)).

Definition next_read (h : sim_hw) : read_fault * list read_fault :=
  (hd ReadOk (read_plan h), tl (read_plan h)).

(** Drive [spec] to [lvl] under the next scripted write outcome. *)
Definition sim_drive (h : sim_hw) (spec : gpio_dt_spec) (lvl : bool)
    : Z * sim_hw :=
  let (f, rest) := next_write h in
  match f with
  | WriteOk =>
      (0,
       match spec with
       | jtag_select0 =>
           {| ready0 := ready0 h; ready1 := ready1 h; level0 := lvl;
              level1 := level1 h; write_plan := rest;
              read_plan := read_plan h |}
       | jtag_select1 =>
           {| ready0 := ready0 h; ready1 := ready1 h; level0 := level0 h;
              level1 := lvl; write_plan := rest;
              read_plan := read_plan h |}
       end)
  | WriteLost =>
      (0,
       {| ready0 := ready0 h; ready1 := ready1 h; level0 := level0 h;
          level1 := level1 h; write_plan := rest;
          read_plan := read_plan h |})
  | WriteErr e =>
      (- Z.pos e,
       {| ready0 := ready0 h; ready1 := ready1 h; level0 := level0 h;
          level1 := level1 h; write_plan := rest;
          read_plan := read_plan h |})
  end.

Definition sim_read (h : sim_hw) (spec : gpio_dt_spec) : Z * sim_hw :=
  let (f, rest) := next_read h in
  let h' :=
    {| ready0 := ready0 h; ready1 := ready1 h; level0 := level0 h;
       level1 := level1 h; write_plan := write_plan h;
       read_plan := rest |} in
  match f with
  | ReadOk => ((if sim_level h spec then 1 else 0), h')
  | ReadErr e => (- Z.pos e, h')
  end.

#[export] Instance sim_driver : GpioDriver sim_hw := {
  gpio_is_ready_dt h spec :=
    match spec with
    | jtag_select0 => ready0 h
    | jtag_select1 => ready1 h
    end;
  gpio_pin_configure_dt h spec := sim_drive h spec false;
  gpio_pin_set_dt h spec value := sim_drive h spec (negb (value =? 0));
  gpio_pin_get_dt h spec := sim_read h spec
}.

(** Both pins driven HIGH at once: the state the hardware must never be in. *)
Definition pins_both_high (h : sim_hw) : bool := level0 h && level1 h.

(** The bank at power-on: both ports ready, both pins low. *)
Definition sim_at_boot (wp : list write_fault) (rp : list read_fault)
    : sim_hw :=
  {| ready0 := true; ready1 := true; level0 := false; level1 := false;
     write_plan := wp; read_plan := rp |}.

(** The program at power-on over the simulated bank. *)
Definition boot_world (wp : list write_fault) (rp : list read_fault)
    : world sim_hw :=
  {| vars := statics_at_boot; dev := sim_at_boot wp rp; log := [];
     seen := [(statics_at_boot, sim_at_boot wp rp)] |}.

(** ** Vocabulary for the statements *)

(** The [select_line] number of a pin, the pin of the other line, and the
    tracked variable that belongs to a pin. *)
Definition line_number (spec : gpio_dt_spec) : Z :=
  match spec with
  | jtag_select0 => 0
  | jtag_select1 => 1
  end.

Definition other_of (spec : gpio_dt_spec) : gpio_dt_spec :=
  match spec with
  | jtag_select0 => jtag_select1
  | jtag_select1 => jtag_select0
  end.

Definition tracked (spec : gpio_dt_spec) (s : statics) : bool :=
  match spec with
  | jtag_select0 => select0_state s
  | jtag_select1 => select1_state s
  end.

(** The level [verify_gpio_state] is asked to find on [spec] during
    [gpio_control_set_select select_line state]: the requested level on the
    requested line, 0 on the other (the pre-emption clear). *)
Definition expected_level (select_line : Z) (state : bool)
    (spec : gpio_dt_spec) : Z :=
  if line_number spec =? select_line then (if state then 1 else 0) else 0.

(** The pin of a valid [select_line]: the [gpio_spec] the switch of
    [gpio_control_set_select] picks for it. *)
Definition pin_of_line (select_line : Z) : gpio_dt_spec :=
  if select_line =? 0 then jtag_select0 else jtag_select1.

(** What a logged driver call of [gpio_control_set_select select_line state]
    makes the function return when it is the call that fails: a
    [gpio_pin_set_dt] that returned a negative value gives that value
    ([return ret] after the clear or the target write), a readback that is
    negative or not the level [verify_gpio_state] was asked to find gives
    [-EIO]; any other call is no failure. *)
Definition event_failure (select_line : Z) (state : bool) (ev : hw_event)
    : option Z :=
  match ev with
  | EvPinSet _ _ ret => if ret <? 0 then Some ret else None
  | EvPinGet spec actual =>
      if (actual <? 0)
         || negb (actual =? expected_level select_line state spec)
      then Some (- EIO)
      else None
  | _ => None
  end.

(** The failure of the first failing call of a log, if there is one.  Calls
    logged after it (the rollback write) do not count. *)
Fixpoint first_failure (select_line : Z) (state : bool)
    (evs : list hw_event) : option Z :=
  match evs with
  | [] => None
  | ev :: rest =>
      match event_failure select_line state ev with
      | Some e => Some e
      | None => first_failure select_line state rest
      end
  end.

(** Tracked state in which the two lines are not both HIGH, now and at every
    point the execution has passed through. *)
Definition tracked_exclusive {H : Type} (w : world H) : Prop :=
  both_high (vars w) = false /\
  Forall (fun sh => both_high (fst sh) = false) (seen w).

(** Every scripted outcome still to come is a success. *)
Definition plan_works (h : sim_hw) : Prop :=
  Forall (eq WriteOk) (write_plan h) /\ Forall (eq ReadOk) (read_plan h).

(** The hardware-side reading of the safety constraint, for runs in which
    readback never errors: the tracked lines are not both HIGH, a pin that
    is HIGH is tracked HIGH, every readback still to come returns the pin's
    level, and at no point passed through were both pins HIGH. *)
Definition pins_exclusive (w : world sim_hw) : Prop :=
  both_high (vars w) = false /\
  implb (level0 (dev w)) (select0_state (vars w)) = true /\
  implb (level1 (dev w)) (select1_state (vars w)) = true /\
  Forall (eq ReadOk) (read_plan (dev w)) /\
  Forall (fun sh => pins_both_high (snd sh) = false) (seen w).

(** The controller after [gpio_control_init] on healthy hardware. *)
Definition ready_world (emul : bool) (wp : list write_fault)
    (rp : list read_fault) : world sim_hw :=
  snd (gpio_control_init emul (boot_world wp rp)).

(** The same with line 0 then set HIGH: tracked state and pins at
    line0 HIGH, line1 LOW. *)
Definition line0_high_world (emul : bool) (wp : list write_fault)
    (rp : list read_fault) : world sim_hw :=
  snd (gpio_control_set_select emul 0 true (ready_world emul wp rp)).

(** Tracked state and pins agree, for runs in which no write is silently
    lost and readback returns the pins' levels: each tracked line equals its
    pin's level, an uninitialised controller tracks both lines LOW, and the
    scripts still to come hold no lost write and no readback error. *)
Definition pins_mirror_tracked (w : world sim_hw) : Prop :=
  level0 (dev w) = select0_state (vars w) /\
  level1 (dev w) = select1_state (vars w) /\
  (initialized (vars w) = false ->
   select0_state (vars w) = false /\ select1_state (vars w) = false) /\
  Forall (fun f => f <> WriteLost) (write_plan (dev w)) /\
  Forall (eq ReadOk) (read_plan (dev w)).

(** * The callers of the controller *)

(** ** main.c: the boot sequence *)

Section Boot.

Context {H : Type} {drv : GpioDriver H}.
Variable CONFIG_GPIO_EMUL : bool.

(** [main], from its first statement to the point where it goes on to
    bring up the network and the shell: [Return ret] when [main] returns
    because [gpio_control_init] failed, [Next tt] when it goes on.  A failure
    of either [gpio_control_set_select] is logged and not returned. *)
Definition main_gpio_setup (w : world H) : flow unit * world H :=
  let (ret, w1) := gpio_control_init CONFIG_GPIO_EMUL w in
  if ret <? 0 then (Return ret, w1) else
  let (ret0, w2) := gpio_control_set_select CONFIG_GPIO_EMUL 0 false w1 in
  let (ret1, w3) := gpio_control_set_select CONFIG_GPIO_EMUL 1 false w2 in
  (Next tt, w3).

End Boot.

(** ** shell_cmds.c: the [jtag] commands *)

(** An argument of a [printf]-style shell message. *)
Inductive shell_arg : Type :=
| ArgInt (z : Z)
| ArgStr (s : string).

(** A line written to the shell: the format string and its arguments. *)
Inductive shell_line : Type :=
| shell_error (fmt : string) (args : list shell_arg)
| shell_print (fmt : string) (args : list shell_arg).

Section Shell.

Context {H : Type} {drv : GpioDriver H}.
Variable CONFIG_GPIO_EMUL : bool.

(** The C library's [atoi] and the build's board name. *)
Variable atoi : string -> Z.
Variable CONFIG_BOARD : string.

(** The controller and what the shell has printed so far, oldest first. *)
Definition shell_state : Type := world H * list shell_line.

(** [argv[1]]; commands read it only after checking [argc]. *)
Definition argv1 (argv : list string) : string := nth 1 argv EmptyString.

Definition cmd_jtag_select0 (argc : Z) (argv : list string)
    (st : shell_state) : Z * shell_state :=
  let (w, out) := st in
  if negb (argc =? 2) then
    (- EINVAL,
     (w, out ++ [shell_error "Usage: jtag select0 <0|1>" []]))
  else
  let value := atoi (argv1 argv) in
  if negb (value =? 0) && negb (value =? 1) then
    (- EINVAL, (w, out ++ [shell_error "Invalid value. Use 0 or 1" []]))
  else
  let state := value =? 1 in
  let (ret, w') := gpio_control_set_select CONFIG_GPIO_EMUL 0 state w in
  if ret <? 0 then
    (ret,
     (w', out ++ [shell_error "Failed to set select0: %d" [ArgInt ret]]))
  else
    (0,
     (w', out ++ [shell_print "select0 set to %d (connector %d)"
                    [ArgInt value; ArgInt value]])).

Definition cmd_jtag_select1 (argc : Z) (argv : list string)
    (st : shell_state) : Z * shell_state :=
  let (w, out) := st in
  if negb (argc =? 2) then
    (- EINVAL,
     (w, out ++ [shell_error "Usage: jtag select1 <0|1>" []]))
  else
  let value := atoi (argv1 argv) in
  if negb (value =? 0) && negb (value =? 1) then
    (- EINVAL, (w, out ++ [shell_error "Invalid value. Use 0 or 1" []]))
  else
  let state := value =? 1 in
  let (ret, w') := gpio_control_set_select CONFIG_GPIO_EMUL 1 state w in
  if ret <? 0 then
    (ret,
     (w', out ++ [shell_error "Failed to set select1: %d" [ArgInt ret]]))
  else
    (0,
     (w', out ++ [shell_print "select1 set to %d (connector %d)"
                    [ArgInt value; ArgInt value]])).

(** [state ? 1 : 0] *)
Definition bool_to_int (b : bool) : Z := if b then 1 else 0.

(** [bool state] is an unassigned local handed to
    [gpio_control_get_select]; it is read only after a successful get. *)
Definition cmd_jtag_toggle0 (argc : Z) (argv : list string)
    (st : shell_state) : Z * shell_state :=
  let (w, out) := st in
  let (ret, w1) := gpio_control_toggle_select CONFIG_GPIO_EMUL 0 w in
  if ret <? 0 then
    (ret,
     (w1, out ++ [shell_error "Failed to toggle select0: %d" [ArgInt ret]]))
  else
  let '(ret, cell, w2) := gpio_control_get_select 0 (Some false) w1 in
  if ret <? 0 then
    (ret,
     (w2, out ++ [shell_error "Failed to get select0 state: %d"
                    [ArgInt ret]]))
  else
  let state := match cell with Some b => b | None => false end in
  (0,
   (w2, out ++ [shell_print "select0 toggled to %d (connector %d)"
                  [ArgInt (bool_to_int state); ArgInt (bool_to_int state)]])).

Definition cmd_jtag_toggle1 (argc : Z) (argv : list string)
    (st : shell_state) : Z * shell_state :=
  let (w, out) := st in
  let (ret, w1) := gpio_control_toggle_select CONFIG_GPIO_EMUL 1 w in
  if ret <? 0 then
    (ret,
     (w1, out ++ [shell_error "Failed to toggle select1: %d" [ArgInt ret]]))
  else
  let '(ret, cell, w2) := gpio_control_get_select 1 (Some false) w1 in
  if ret <? 0 then
    (ret,
     (w2, out ++ [shell_error "Failed to get select1 state: %d"
                    [ArgInt ret]]))
  else
  let state := match cell with Some b => b | None => false end in
  (0,
   (w2, out ++ [shell_print "select1 toggled to %d (connector %d)"
                  [ArgInt (bool_to_int state); ArgInt (bool_to_int state)]])).

Definition cmd_jtag_status (argc : Z) (argv : list string)
    (st : shell_state) : Z * shell_state :=
  let (w, out) := st in
  let '(ret, cell0, w1) := gpio_control_get_select 0 (Some false) w in
  if ret <? 0 then
    (ret,
     (w1, out ++ [shell_error "Failed to get select0 state: %d"
                    [ArgInt ret]]))
  else
  let state0 := match cell0 with Some b => b | None => false end in
  let '(ret, cell1, w2) := gpio_control_get_select 1 (Some false) w1 in
  if ret <? 0 then
    (ret,
     (w2, out ++ [shell_error "Failed to get select1 state: %d"
                    [ArgInt ret]]))
  else
  let state1 := match cell1 with Some b => b | None => false end in
  (0,
   (w2,
    out ++
    [shell_print "JTAG Switch Status:" [];
     shell_print "  select0: %d (connector %d)"
       [ArgInt (bool_to_int state0); ArgInt (bool_to_int state0)];
     shell_print "  select1: %d (connector %d)"
       [ArgInt (bool_to_int state1); ArgInt (bool_to_int state1)];
     shell_print EmptyString [];
     shell_print "Board: %s" [ArgStr CONFIG_BOARD]])).

(** The subcommands of [jtag], as registered in [sub_jtag]. *)
Inductive jtag_subcmd : Type :=
| sub_select0
| sub_select1
| sub_toggle0
| sub_toggle1
| sub_status.

Definition sub_jtag (c : jtag_subcmd)
    : Z -> list string -> shell_state -> Z * shell_state :=
  match c with
  | sub_select0 => cmd_jtag_select0
  | sub_select1 => cmd_jtag_select1
  | sub_toggle0 => cmd_jtag_toggle0
  | sub_toggle1 => cmd_jtag_toggle1
  | sub_status => cmd_jtag_status
  end.

(** The subcommand that sets, and the one that toggles, a given line. *)
Definition select_subcmd (spec : gpio_dt_spec) : jtag_subcmd :=
  match spec with
  | jtag_select0 => sub_select0
  | jtag_select1 => sub_select1
  end.

Definition toggle_subcmd (spec : gpio_dt_spec) : jtag_subcmd :=
  match spec with
  | jtag_select0 => sub_toggle0
  | jtag_select1 => sub_toggle1
  end.

(** Command lines typed one after the other; each handler gets the words
    of its line, the subcommand's name first, and their number. *)
Fixpoint run_jtag (lines : list (jtag_subcmd * list string))
    (st : shell_state) : list Z * shell_state :=
  match lines with
  | [] => ([], st)
  | (c, argv) :: rest =>
      let (ret, st1) := sub_jtag c (Z.of_nat (length argv)) argv st in
      let (rets, st2) := run_jtag rest st1 in
      (ret :: rets, st2)
  end.

End Shell.

(** ** http_rest_api.c: the select and toggle endpoints *)

(** [enum http_data_status] *)
Inductive http_data_status : Type :=
| HTTP_SERVER_DATA_ABORTED
| HTTP_SERVER_DATA_MORE
| HTTP_SERVER_DATA_FINAL.

(** The values of [enum http_status] the two handlers assign. *)
Inductive http_status : Type :=
| HTTP_200_OK
| HTTP_400_BAD_REQUEST
| HTTP_500_INTERNAL_SERVER_ERROR.

(** [struct select_request] and [struct toggle_request] *)
Record select_request : Type := mkSelectRequest {
  sel_line : Z;
  sel_connector : Z
}.

Record toggle_request : Type := mkToggleRequest {
  tog_line : Z
}.

(** The structures handed to [json_obj_encode_buf]. *)
Inductive json_struct : Type :=
| error_response (error : string)
| select_response (success select0 select1 : bool)
| toggle_response (success : bool) (line : Z) (state : bool).

(** Where [response_ctx->body] points. *)
Inductive body_ptr : Type :=
| body_elsewhere
| body_json_response_buffer.

(** The fields of [struct http_response_ctx] the handlers assign. *)
Record http_response_ctx : Type := mkResponse {
  body : body_ptr;
  body_len : Z;
  final_chunk : bool;
  status : option http_status
}.

(** [sizeof(request_buffer)] *)
Definition REQUEST_BUFFER_SIZE : Z := 128.

(** A handler's function-scope statics. *)
Record request_statics : Type := mkRequestStatics {
  request_buffer : list Byte.byte;
  request_offset : Z
}.

(** The double quote character and the two literals the handlers
    [strcpy] into [json_response_buffer]. *)
Definition dquote : string := String (ascii_of_nat 34) EmptyString.

Definition json_error_literal (msg : string) : string :=
  String.append "{"
    (String.append dquote
       (String.append "error"
          (String.append dquote
             (String.append ":"
                (String.append dquote
                   (String.append msg (String.append dquote "}"))))))).

(** [request_offset] is within [request_buffer], which has its declared
    size. *)
Definition request_statics_ok (rs : request_statics) : Prop :=
  0 <= request_offset rs <= REQUEST_BUFFER_SIZE /\
  Z.of_nat (length (request_buffer rs)) = REQUEST_BUFFER_SIZE.

Section Http.

Context {H : Type} {drv : GpioDriver H}.
Variable CONFIG_GPIO_EMUL : bool.

(** The width of [size_t] in bits. *)
Variable SIZE_BITS : Z.

(** Zephyr's JSON library.  [json_obj_parse] gets the received bytes and
    the structure as initialised by the handler and yields its return
    value, the structure as it leaves it and the bytes as it leaves them
    (it takes a non-const pointer and may rewrite what it parses);
    [json_obj_encode_buf] gets the structure to encode and the buffer's
    content and yields its return value and the buffer's new content. *)
Variable json_obj_parse_select :
  list Byte.byte -> select_request -> Z * select_request * list Byte.byte.
Variable json_obj_parse_toggle :
  list Byte.byte -> toggle_request -> Z * toggle_request * list Byte.byte.
Variable json_obj_encode_buf : json_struct -> string -> Z * string.

(** [size_t] subtraction and addition. *)
Definition size_sub (a b : Z) : Z := (a - b) mod 2 ^ SIZE_BITS.
Definition size_add (a b : Z) : Z := (a + b) mod 2 ^ SIZE_BITS.

(** [memcpy(request_buffer + request_offset, data, to_copy)] *)
Definition memcpy_at (buf : list Byte.byte) (offset : Z)
    (data : list Byte.byte) (to_copy : Z) : list Byte.byte :=
  firstn (Z.to_nat offset) buf ++
  firstn (Z.to_nat to_copy) data ++
  skipn (Z.to_nat offset + Z.to_nat to_copy) buf.

(** The first block of both handlers: reset on abort, otherwise append the
    chunk, as much of it as fits.  [request_ctx->data_len] is the length of
    [request_ctx->data]. *)
Definition accumulate (st : http_data_status) (data : list Byte.byte)
    (rs : request_statics) : request_statics :=
  match st with
  | HTTP_SERVER_DATA_ABORTED =>
      {| request_buffer := request_buffer rs; request_offset := 0 |}
  | _ =>
      let data_len := Z.of_nat (length data) in
      if 0 <? data_len then
        let to_copy :=
          Z.min data_len
            (size_sub REQUEST_BUFFER_SIZE (request_offset rs)) in
        {| request_buffer :=
             memcpy_at (request_buffer rs) (request_offset rs) data to_copy;
           request_offset := size_add (request_offset rs) to_copy |}
      else rs
  end.

(** The bytes [json_obj_parse] is given: [request_offset] bytes from the
    start of [request_buffer]. *)
Definition received (rs : request_statics) : list Byte.byte :=
  firstn (Z.to_nat (request_offset rs)) (request_buffer rs).

(** Chunks handed to a handler one after the other, none of them with
    [HTTP_SERVER_DATA_ABORTED]: what the first block makes of them. *)
Definition accumulate_all (chunks : list (http_data_status * list Byte.byte))
    (rs : request_statics) : request_statics :=
  fold_left (fun acc c => accumulate (fst c) (snd c) acc) chunks rs.

(** The statics after [json_obj_parse] has run over the received bytes and
    [request_offset] has been reset. *)
Definition after_parse (rs : request_statics) (parsed : list Byte.byte)
    : request_statics :=
  {| request_buffer :=
       parsed ++ skipn (Z.to_nat (request_offset rs)) (request_buffer rs);
     request_offset := 0 |}.

(** The statics of the file the two handlers use, with the controller. *)
Record http_state : Type := mkHttpState {
  gpio : world H;
  json_response_buffer : string;
  select_statics : request_statics;
  toggle_statics : request_statics
}.

(** Encode an error body; on a negative result fall back to the literal. *)
Definition encode_error (msg : string) (buffer : string) : string :=
  let (ret, buffer') := json_obj_encode_buf (error_response msg) buffer in
  if ret <? 0 then json_error_literal "Internal error" else buffer'.

(** The tail of the [HTTP_SERVER_DATA_FINAL] block: publish the buffer. *)
Definition publish (buffer : string) (st : http_status)
    : http_response_ctx :=
  {| body := body_json_response_buffer;
     body_len := Z.of_nat (String.length buffer);
     final_chunk := true;
     status := Some st |}.

(** [uint8_t select_line] receives an [int]. *)
Definition to_uint8 (z : Z) : Z := z mod 256.

Definition select_handler (st : http_data_status) (data : list Byte.byte)
    (response_ctx : http_response_ctx) (s : http_state)
    : Z * http_response_ctx * http_state :=
  let rs := accumulate st data (select_statics s) in
  match st with
  | HTTP_SERVER_DATA_FINAL =>
      let '(parse_ret, req, parsed) :=
        json_obj_parse_select (received rs)
          {| sel_line := -1; sel_connector := -1 |} in
      let '(w, buffer, code) :=
        if (parse_ret <? 0) || (sel_line req <? 0) || (sel_line req >? 1)
           || (sel_connector req <? 0) || (sel_connector req >? 3)
        then
          (gpio s,
           encode_error "Invalid request parameters"
             (json_response_buffer s),
           HTTP_400_BAD_REQUEST)
        else
          let value :=
            (sel_connector req =? 1) || (sel_connector req =? 3) in
          let (ret, w1) :=
            gpio_control_set_select CONFIG_GPIO_EMUL
              (to_uint8 (sel_line req)) value (gpio s) in
          if ret <? 0 then
            (w1,
             encode_error "Failed to set GPIO" (json_response_buffer s),
             HTTP_500_INTERNAL_SERVER_ERROR)
          else
            let '(_, cell0, w2) :=
              gpio_control_get_select 0 (Some false) w1 in
            let '(_, cell1, w3) :=
              gpio_control_get_select 1 (Some false) w2 in
            let select0 :=
              match cell0 with Some b => b | None => false end in
            let select1 :=
              match cell1 with Some b => b | None => false end in
            let (encode_ret, buffer') :=
              json_obj_encode_buf (select_response true select0 select1)
                (json_response_buffer s) in
            if encode_ret =? 0 then (w3, buffer', HTTP_200_OK)
            else
              (w3, json_error_literal "Encoding failed",
               HTTP_500_INTERNAL_SERVER_ERROR)
      in
      (0,
       publish buffer code,
       {| gpio := w;
          json_response_buffer := buffer;
          select_statics := after_parse rs parsed;
          toggle_statics := toggle_statics s |})
  | _ =>
      (0,
       response_ctx,
       {| gpio := gpio s;
          json_response_buffer := json_response_buffer s;
          select_statics := rs;
          toggle_statics := toggle_statics s |})
  end.

Definition toggle_handler (st : http_data_status) (data : list Byte.byte)
    (response_ctx : http_response_ctx) (s : http_state)
    : Z * http_response_ctx * http_state :=
  let rs := accumulate st data (toggle_statics s) in
  match st with
  | HTTP_SERVER_DATA_FINAL =>
      let '(parse_ret, req, parsed) :=
        json_obj_parse_toggle (received rs) {| tog_line := -1 |} in
      let '(w, buffer, code) :=
        if (parse_ret <? 0) || (tog_line req <? 0) || (tog_line req >? 1)
        then
          (gpio s,
           encode_error "Invalid line parameter" (json_response_buffer s),
           HTTP_400_BAD_REQUEST)
        else
          let (ret, w1) :=
            gpio_control_toggle_select CONFIG_GPIO_EMUL
              (to_uint8 (tog_line req)) (gpio s) in
          if ret <? 0 then
            (w1,
             encode_error "Failed to toggle GPIO" (json_response_buffer s),
             HTTP_500_INTERNAL_SERVER_ERROR)
          else
            let '(_, cell, w2) :=
              gpio_control_get_select (to_uint8 (tog_line req))
                (Some false) w1 in
            let state := match cell with Some b => b | None => false end in
            let (encode_ret, buffer') :=
              json_obj_encode_buf
                (toggle_response true (tog_line req) state)
                (json_response_buffer s) in
            if encode_ret =? 0 then (w2, buffer', HTTP_200_OK)
            else
              (w2, json_error_literal "Encoding failed",
               HTTP_500_INTERNAL_SERVER_ERROR)
      in
      (0,
       publish buffer code,
       {| gpio := w;
          json_response_buffer := buffer;
          select_statics := select_statics s;
          toggle_statics := after_parse rs parsed |})
  | _ =>
      (0,
       response_ctx,
       {| gpio := gpio s;
          json_response_buffer := json_response_buffer s;
          select_statics := select_statics s;
          toggle_statics := rs |})
  end.

(** One invocation of a handler by the HTTP server. *)
Inductive http_call : Type :=
| call_select (st : http_data_status) (data : list Byte.byte)
| call_toggle (st : http_data_status) (data : list Byte.byte).

Definition http_step (c : http_call) (response_ctx : http_response_ctx)
    (s : http_state) : Z * http_response_ctx * http_state :=
  match c with
  | call_select st data => select_handler st data response_ctx s
  | call_toggle st data => toggle_handler st data response_ctx s
  end.

(** Invocations one after the other, each with a response context of the
    server's; the state after the last. *)
Fixpoint run_http (cs : list (http_call * http_response_ctx))
    (s : http_state) : http_state :=
  match cs with
  | [] => s
  | (c, response_ctx) :: rest =>
      let '(_, _, s1) := http_step c response_ctx s in
      run_http rest s1
  end.

End Http.

(** ** Concrete runs of the callers *)

(** A bank whose first GPIO device is not ready. *)
Definition unready_world : world sim_hw :=
  {| vars := statics_at_boot;
     dev :=
       {| ready0 := false; ready1 := true; level0 := false; level1 := false;
          write_plan := []; read_plan := [] |};
     log := []; seen := [] |}.

(** A bank found with both pins HIGH at power-on. *)
Definition pins_high_at_boot : world sim_hw :=
  {| vars := statics_at_boot;
     dev :=
       {| ready0 := true; ready1 := true; level0 := true; level1 := true;
          write_plan := []; read_plan := [] |};
     log := []; seen := [] |}.

(** An [atoi] for unsigned decimal words: the value of the leading
    digits. *)
Fixpoint atoi_digits (acc : Z) (s : string) : Z :=
  match s with
  | EmptyString => acc
  | String c rest =>
      let n := Z.of_nat (nat_of_ascii c) in
      if (48 <=? n) && (n <=? 57) then atoi_digits (10 * acc + (n - 48)) rest
      else acc
  end.

Definition atoi_decimal (s : string) : Z := atoi_digits 0 s.

(** [static uint8_t request_buffer[128]; static size_t request_offset = 0;] *)
Definition request_statics_at_boot : request_statics :=
  {| request_buffer := repeat Byte.x00 128; request_offset := 0 |}.

(** The statics of http_rest_api.c at program start, over a controller. *)
Definition http_at_boot {H : Type} (w : world H) : http_state :=
  {| gpio := w;
     json_response_buffer := EmptyString;
     select_statics := request_statics_at_boot;
     toggle_statics := request_statics_at_boot |}.

(** Stand-ins for the JSON library: a parser that reports [ret] and the
    given fields whatever the bytes, leaving them as they are, and an
    encoder that reports [ret] and leaves the buffer as it is. *)
Definition parse_select_as (ret line connector : Z) (bytes : list Byte.byte)
    (req : select_request) : Z * select_request * list Byte.byte :=
  (ret, {| sel_line := line; sel_connector := connector |}, bytes).

Definition parse_toggle_as (ret line : Z) (bytes : list Byte.byte)
    (req : toggle_request) : Z * toggle_request * list Byte.byte :=
  (ret, {| tog_line := line |}, bytes).

Definition encode_as (ret : Z) (value : json_struct) (buffer : string)
    : Z * string :=
  (ret, buffer).

(** A response context as the server hands it in. *)
Definition fresh_response : http_response_ctx :=
  {| body := body_elsewhere; body_len := 0; final_chunk := false;
     status := None |}.

(** * Proof automation: symbolic execution of a body *)

Ltac reduce_world :=
  cbv beta iota zeta delta [deref vars dev log seen fst snd];
  cbn [negb andb].

Ltac unfold_bodies :=
  cbv beta iota zeta delta
    [gpio_control_toggle_select gpio_control_toggle_select_from
     gpio_control_set_select gpio_control_set_select_body
     gpio_control_init gpio_control_init_body
     call invoke bind rollback verify_gpio_state select_switch
     load_initialized load store store_initialized
     is_ready pin_configure pin_set pin_get pure return_ observe
     deref vars dev log seen fst snd];
  cbn [negb andb].

(** Use what the context already says about a driver call or a test. *)
Ltac use_known :=
  match goal with
  | E : gpio_pin_set_dt ?h ?s ?v = _
    |- context [gpio_pin_set_dt ?h ?s ?v] => rewrite E
  | E : gpio_pin_get_dt ?h ?s = _
    |- context [gpio_pin_get_dt ?h ?s] => rewrite E
  | E : gpio_pin_configure_dt ?h ?s = _
    |- context [gpio_pin_configure_dt ?h ?s] => rewrite E
  | E : ?c = true |- context [if ?c then _ else _] => rewrite E
  | E : ?c = false |- context [if ?c then _ else _] => rewrite E
  | E : ?c = true |- context [if negb ?c then _ else _] => rewrite E
  | E : ?c = false |- context [if negb ?c then _ else _] => rewrite E
  | E : ?c = true |- context [if ?c && _ then _ else _] => rewrite E
  | E : ?c = false |- context [if ?c && _ then _ else _] => rewrite E
  end.

Ltac split_driver_call :=
  match goal with
  | |- context [gpio_pin_set_dt ?h ?s ?v] =>
      let r := fresh "r" in
      let h' := fresh "h" in
      let E := fresh "Eset" in
      destruct (gpio_pin_set_dt h s v) as [r h'] eqn:E
  | |- context [gpio_pin_get_dt ?h ?s] =>
      let r := fresh "a" in
      let h' := fresh "h" in
      let E := fresh "Eget" in
      destruct (gpio_pin_get_dt h s) as [r h'] eqn:E
  | |- context [gpio_pin_configure_dt ?h ?s] =>
      let r := fresh "r" in
      let h' := fresh "h" in
      let E := fresh "Ecfg" in
      destruct (gpio_pin_configure_dt h s) as [r h'] eqn:E
  end.

Ltac split_branch :=
  match goal with
  | |- context [if negb ?c then _ else _] =>
      let E := fresh "Eif" in destruct c eqn:E
  | |- context [if ?c && _ then _ else _] =>
      let E := fresh "Eif" in destruct c eqn:E
  | |- context [if ?c then _ else _] =>
      let E := fresh "Eif" in destruct c eqn:E
  end.

Ltac symex_step :=
  first [ use_known | split_driver_call | split_branch ]; reduce_world.

Ltac symex := unfold_bodies; repeat symex_step.

(** Turn the boolean tests of the code into arithmetic facts. *)
Ltac tests_to_Z :=
  repeat match goal with
    | E : (_ <? _) = true |- _ => apply Z.ltb_lt in E
    | E : (_ <? _) = false |- _ => apply Z.ltb_ge in E
    | E : (_ =? _) = true |- _ => apply Z.eqb_eq in E
    | E : (_ =? _) = false |- _ => apply Z.eqb_neq in E
    end;
  unfold EIO, ENODEV, EINVAL in *.

(** * Facts that hold over every driver *)

Section ControllerFacts.

Context {H : Type} {drv : GpioDriver H}.
Variable emul : bool.

(** ** Argument checking *)

Lemma set_select_invalid_line (select_line : Z) (state : bool)
    (w : world H) :
  select_line <> 0 -> select_line <> 1 ->
  gpio_control_set_select emul select_line state w = (- EINVAL, w).
Proof.
  intros Hn0 Hn1.
  unfold gpio_control_set_select, gpio_control_set_select_body, call, bind,
    load_initialized, select_switch, return_.
  destruct (initialized (vars w)); simpl; [ | reflexivity ].
  destruct select_line as [ | [ p | p | ] | p ]; try reflexivity; congruence.
Qed.

Lemma get_select_invalid_line (select_line : Z) (out : option bool)
    (w : world H) :
  select_line <> 0 -> select_line <> 1 ->
  gpio_control_get_select select_line out w = (- EINVAL, out, w).
Proof.
  intros Hn0 Hn1. unfold gpio_control_get_select.
  destruct (initialized (vars w)), out; simpl; try reflexivity;
    destruct select_line as [ | [ p | p | ] | p ]; try reflexivity;
    congruence.
Qed.

(** C5: for a [select_line] other than 0 and 1, initialised or not,
    [gpio_control_set_select] and [gpio_control_get_select] return [-EINVAL]
    and hand back the world they were given: the driver-call log, the
    hardware and the tracked variables are the same, and the cell behind the
    output pointer keeps its content. *)
Theorem invalid_line_rejected (select_line : Z) (state : bool)
    (out : option bool) (w : world H) :
  select_line <> 0 -> select_line <> 1 ->
  gpio_control_set_select emul select_line state w = (- EINVAL, w) /\
  gpio_control_get_select select_line out w = (- EINVAL, out, w).
Proof.
  intros Hn0 Hn1. split.
  - apply set_select_invalid_line; assumption.
  - apply get_select_invalid_line; assumption.
Qed.

(** C10: with a NULL output pointer [gpio_control_get_select] returns
    [-EINVAL] for every line and every initialisation state; there is no
    cell to write, and the world (log, hardware, tracked variables) is handed
    back as it was. *)
Theorem get_select_null_rejected (select_line : Z) (w : world H) :
  gpio_control_get_select select_line None w = (- EINVAL, None, w).
Proof.
  unfold gpio_control_get_select.
  rewrite orb_true_r. reflexivity.
Qed.

(** ** Initialisation *)

Lemma init_when_initialized (w : world H) :
  initialized (vars w) = true -> gpio_control_init emul w = (0, w).
Proof.
  destruct w as [v h l past]; cbn [vars]. intros Hinit.
  symex. reflexivity.
Qed.

Lemma init_from_reset (w : world H) :
  initialized (vars w) = false ->
  let (ret, w1) := gpio_control_init emul w in
  ret = 0 ->
  vars w1 =
    {| select0_state := false; select1_state := false;
       initialized := true |}.
Proof.
  destruct w as [v h l past]; cbn [vars]. intros Hinit.
  symex; tests_to_Z; try reflexivity; lia.
Qed.

(** C7: when the first [gpio_control_init], made on the uninitialised
    controller, returns 0, the tracked state is LOW/LOW and a second call
    returns 0 and hands back the very same world: no driver call is added to
    the log, the hardware is not touched and the tracked state stays
    LOW/LOW. *)
Theorem init_twice (w : world H) :
  initialized (vars w) = false ->
  fst (gpio_control_init emul w) = 0 ->
  let w1 := snd (gpio_control_init emul w) in
  vars w1 =
    {| select0_state := false; select1_state := false;
       initialized := true |} /\
  gpio_control_init emul w1 = (0, w1).
Proof.
  intros Hinit Hret.
  pose proof (init_from_reset w Hinit) as Hfresh.
  destruct (gpio_control_init emul w) as [ret w1]. cbn in *.
  specialize (Hfresh Hret). split; [ exact Hfresh | ].
  apply init_when_initialized. rewrite Hfresh. reflexivity.
Qed.

(** ** Failure of the pre-emption clear *)

(** C4: on an initialised controller, [gpio_control_set_select line true]
    with the other line tracked HIGH, when the clear of the other pin fails
    (the write returns [r < 0], or the write passes and readback returns a
    negative value or a level other than 0): the call returns that failure
    ([r], resp. [-EIO]), the only driver calls it makes address the other
    pin (the clear and, if it passed, its readback), and the tracked
    variables are those it started with. *)
Theorem preemption_clear_failure (target : gpio_dt_spec) (w : world H)
    (r a : Z) (h1 h2 : H) :
  initialized (vars w) = true ->
  tracked (other_of target) (vars w) = true ->
  gpio_pin_set_dt (dev w) (other_of target) 0 = (r, h1) ->
  gpio_pin_get_dt h1 (other_of target) = (a, h2) ->
  r < 0 \/ (emul = false /\ (a < 0 \/ a <> 0)) ->
  let (ret, w') := gpio_control_set_select emul (line_number target) true w in
  ret < 0 /\
  ret = (if r <? 0 then r else - EIO) /\
  vars w' = vars w /\
  log w' =
    log w ++
    EvPinSet (other_of target) 0 r ::
    (if r <? 0 then [] else [EvPinGet (other_of target) a]).
Proof.
  destruct w as [v h l past]; cbn [vars dev log seen].
  intros Hinit Hother Hset Hget Hfail.
  destruct target; cbn [other_of tracked line_number] in *.
  all: symex; tests_to_Z.
  all: destruct Hfail as [Hneg | [Hemul [Ha | Ha]]];
    try lia; try discriminate Hemul.
  all: repeat split; try lia; try reflexivity.
  all: rewrite <- ?app_assoc; reflexivity.
Qed.

(** ** What a failure returns *)

Ltac new_events :=
  cbn [log]; rewrite <- ?app_assoc; cbn [app];
  eexists; split; [ reflexivity | ].

Ltac known_tests :=
  repeat match goal with
    | E : (?a <? ?b) = _ |- context [?a <? ?b] => rewrite E
    | E : (?a =? ?b) = _ |- context [?a =? ?b] => rewrite E
    end.

(** C6, as the code has it: [gpio_control_set_select] returns 0 or a
    negative errno, and the errno is all a caller gets; no component of the
    result names a line.  The value is fixed by what happened.  On a
    controller that is not initialised it is [-EINVAL], and so it is on an
    initialised one when the line is neither 0 nor 1; nothing else has
    happened in either case.  On an initialised controller and line 0 or 1
    it is decided by the first driver call of the call that fails: the
    driver's own negative return value if that is a [gpio_pin_set_dt] (the
    clear of the other pin or the write of the target), [-EIO] if it is a
    readback that is negative or not the expected level; it is 0 only when
    no driver call failed, and then the target pin was written and, outside
    a [CONFIG_GPIO_EMUL] build, read back. *)
Theorem set_select_failure_codes (select_line : Z) (state : bool)
    (w : world H) :
  let (ret, w') := gpio_control_set_select emul select_line state w in
  ret <= 0 /\
  exists new, log w' = log w ++ new /\
    (initialized (vars w) = false -> ret = - EINVAL /\ w' = w) /\
    (initialized (vars w) = true ->
     select_line <> 0 -> select_line <> 1 -> ret = - EINVAL /\ w' = w) /\
    (initialized (vars w) = true ->
     select_line = 0 \/ select_line = 1 ->
     ret =
       match first_failure select_line state new with
       | Some e => e
       | None => 0
       end /\
     (ret = 0 ->
      (exists r,
         In (EvPinSet (pin_of_line select_line) (if state then 1 else 0) r)
           new) /\
      (emul = false ->
       exists a, In (EvPinGet (pin_of_line select_line) a) new))).
Proof.
  destruct (Z.eq_dec select_line 0) as [-> | Hn0];
    [ | destruct (Z.eq_dec select_line 1) as [-> | Hn1] ].
  3: { rewrite (set_select_invalid_line select_line state w Hn0 Hn1).
       split; [ unfold EINVAL; lia | ].
       exists []. rewrite app_nil_r.
       repeat apply conj; try reflexivity; auto.
       intros _ [E | E]; contradiction. }
  all: destruct w as [v h l past]; cbn [vars].
  all: symex.
  all: (split; [ tests_to_Z; lia | ]).
  all: first [ new_events
             | exists []; split; [ symmetry; apply app_nil_r | ] ].
  all: repeat apply conj.
  all: try (intros Hf; rewrite Hf in *; discriminate).
  all: try (intros _; split; reflexivity).
  all: try (intros _ Ha Hb; exfalso; lia).
  all: intros _ _.
  all: try solve [ exfalso; tests_to_Z; lia ].
  all: cbv [first_failure event_failure expected_level line_number
            pin_of_line];
    change (0 =? 0) with true; change (1 =? 1) with true;
    change (0 =? 1) with false; change (1 =? 0) with false;
    cbv iota; known_tests; cbn [orb negb].
  all: (split; [ reflexivity | ]).
  all: intros Hr.
  all: try solve [ exfalso; tests_to_Z; unfold EIO in *; lia ].
  all: (split; [ eexists; cbn [In]; solve [ auto 10 ] | ]).
  all: try (intros Hf; discriminate Hf).
  all: intros _; eexists; cbn [In]; solve [ auto 10 ].
Qed.

(** ** Mutual exclusion of the tracked state *)

Ltac exclusion_goal :=
  unfold tracked_exclusive; cbn [vars seen];
  rewrite ?Forall_app; repeat split; try assumption;
  repeat constructor;
  cbv [both_high assign set_initialized fst select0_state select1_state
       initialized andb] in *;
  try reflexivity; try congruence.

Lemma init_keeps_exclusion (w : world H) :
  tracked_exclusive w -> tracked_exclusive (snd (gpio_control_init emul w)).
Proof.
  destruct w as [[s0 s1 i] h l past].
  intros [Hnow Hpast]; cbn [vars seen] in *.
  symex; exclusion_goal.
  all: destruct s0, s1; try reflexivity; discriminate.
Qed.

Lemma set_select_keeps_exclusion (select_line : Z) (state : bool)
    (w : world H) :
  tracked_exclusive w ->
  tracked_exclusive (snd (gpio_control_set_select emul select_line state w)).
Proof.
  intros Hw.
  destruct (Z.eq_dec select_line 0) as [-> | Hn0];
    [ | destruct (Z.eq_dec select_line 1) as [-> | Hn1] ].
  3: { rewrite (set_select_invalid_line select_line state w Hn0 Hn1).
       exact Hw. }
  all: destruct w as [[s0 s1 i] h l past];
    destruct Hw as [Hnow Hpast]; cbn [vars seen] in *.
  all: destruct state, s0, s1; try discriminate Hnow.
  all: symex; exclusion_goal.
Qed.

Lemma toggle_select_junk_irrelevant (junk : bool) (select_line : Z)
    (w : world H) :
  gpio_control_toggle_select_from emul junk select_line w =
  gpio_control_toggle_select emul select_line w.
Proof.
  unfold gpio_control_toggle_select, gpio_control_toggle_select_from,
    gpio_control_get_select.
  destruct (initialized (vars w)); cbn [negb orb]; [ | reflexivity ].
  destruct select_line as [ | [ p | p | ] | p ]; reflexivity.
Qed.

Lemma get_select_same_world (select_line : Z) (out : option bool)
    (w : world H) :
  snd (gpio_control_get_select select_line out w) = w.
Proof.
  unfold gpio_control_get_select.
  destruct (negb (initialized (vars w)) || _); [ reflexivity | ].
  destruct select_line as [ | [ p | p | ] | p ]; reflexivity.
Qed.

Lemma toggle_select_keeps_exclusion (select_line : Z) (w : world H) :
  tracked_exclusive w ->
  tracked_exclusive (snd (gpio_control_toggle_select emul select_line w)).
Proof.
  intros Hw.
  unfold gpio_control_toggle_select, gpio_control_toggle_select_from.
  pose proof (get_select_same_world select_line (Some false) w) as Hsame.
  destruct (gpio_control_get_select select_line (Some false) w)
    as [[ret cur] w1].
  cbn [snd] in Hsame. subst w1.
  destruct (ret <? 0); [ exact Hw | ].
  apply set_select_keeps_exclusion. exact Hw.
Qed.

Lemma api_step_keeps_exclusion (c : api_call) (w : world H) :
  tracked_exclusive w -> tracked_exclusive (snd (api_step emul c w)).
Proof.
  intros Hw. destruct c as [ | line state | line out | line ]; cbn [api_step].
  - apply init_keeps_exclusion, Hw.
  - apply set_select_keeps_exclusion, Hw.
  - pose proof (get_select_same_world line out w) as Hsame.
    destruct (gpio_control_get_select line out w) as [[ret cur] w1].
    cbn [snd] in *. subst w1. exact Hw.
  - apply toggle_select_keeps_exclusion, Hw.
Qed.

(** X25: over every driver, whatever each driver call returns: along any
    sequence of calls started in a state where [select0_state] and
    [select1_state] are not both true, they are never both true, neither
    after a call nor at any point passed through inside one. *)
Lemma tracked_exclusion_all_runs (cs : list api_call) (w : world H) :
  tracked_exclusive w -> tracked_exclusive (snd (run_calls emul cs w)).
Proof.
  revert w. induction cs as [ | c cs IH ]; intros w Hw; cbn [run_calls].
  - exact Hw.
  - pose proof (api_step_keeps_exclusion c w Hw) as Hstep.
    destruct (api_step emul c w) as [ret w1]. cbn [snd] in Hstep.
    specialize (IH w1 Hstep).
    destruct (run_calls emul cs w1) as [rets w2]. exact IH.
Qed.

End ControllerFacts.

(** * Facts over the simulated GPIO bank *)

Lemma works_hd {A : Type} (x : A) (p : list A) :
  Forall (eq x) p -> hd x p = x.
Proof. destruct 1; [ reflexivity | symmetry; assumption ]. Qed.

Lemma works_tl {A : Type} (x : A) (p : list A) :
  Forall (eq x) p -> Forall (eq x) (tl p).
Proof. destruct 1; [ constructor | assumption ]. Qed.

Ltac plan_tail := repeat apply works_tl; assumption.

(** The next scripted outcome of a plan known to work. *)
Ltac pop_plan :=
  match goal with
  | |- context [hd WriteOk ?p] => rewrite (works_hd WriteOk p) by plan_tail
  | |- context [hd ReadOk ?p] => rewrite (works_hd ReadOk p) by plan_tail
  end.

(** Any scripted outcome: split on the next entry of a plan. *)
Ltac pop_any :=
  match goal with
  | |- context [match hd ?d ?p with _ => _ end] =>
      let E := fresh "Eplan" in destruct (hd d p) eqn:E
  end.

Ltac sim_reduce :=
  cbv beta iota zeta delta
    [gpio_is_ready_dt gpio_pin_configure_dt gpio_pin_set_dt gpio_pin_get_dt
     sim_driver sim_drive sim_read next_write next_read sim_level
     ready0 ready1 level0 level1 write_plan read_plan
     deref vars dev log seen fst snd];
  cbn.

Ltac sim_symex :=
  unfold_bodies; sim_reduce;
  repeat (first [ pop_plan | split_branch ]; sim_reduce).

Ltac sim_symex_any :=
  unfold_bodies; sim_reduce;
  repeat (first [ pop_any | split_branch ]; sim_reduce).

(** Writes may do anything, readback works. *)
Ltac sim_symex_reads_work :=
  unfold_bodies; sim_reduce;
  repeat (first [ pop_plan | pop_any | split_branch ]; sim_reduce).

Ltac pins_goal :=
  unfold pins_exclusive; cbn [vars dev seen read_plan level0 level1];
  rewrite ?Forall_app; repeat split; try assumption; try plan_tail;
  repeat constructor; try reflexivity.

(** ** Where the pins do stay exclusive

    In the hardware build, as long as no readback errors, the pins are never
    both HIGH, whatever the writes do: a verification that fails then means
    the pin is not at the requested level. *)

Lemma init_keeps_pins_exclusive (w : world sim_hw) :
  pins_exclusive w -> pins_exclusive (snd (gpio_control_init false w)).
Proof.
  destruct w as [[s0 s1 i] [r0 r1 l0 l1 wp rp] l past].
  intros (Hnow & H0 & H1 & Hr & Hpast);
    cbn [vars dev seen read_plan level0 level1 select0_state select1_state]
      in *.
  destruct s0, s1, l0, l1; try discriminate.
  all: sim_symex_reads_work; pins_goal.
Qed.

Lemma set_select_keeps_pins_exclusive (select_line : Z) (state : bool)
    (w : world sim_hw) :
  pins_exclusive w ->
  pins_exclusive (snd (gpio_control_set_select false select_line state w)).
Proof.
  intros Hw.
  destruct (Z.eq_dec select_line 0) as [-> | Hn0];
    [ | destruct (Z.eq_dec select_line 1) as [-> | Hn1] ].
  3: { rewrite (set_select_invalid_line false select_line state w Hn0 Hn1).
       exact Hw. }
  all: destruct w as [[s0 s1 i] [r0 r1 l0 l1 wp rp] l past].
  all: destruct Hw as (Hnow & H0 & H1 & Hr & Hpast);
    cbn [vars dev seen read_plan level0 level1 select0_state select1_state]
      in *.
  all: destruct state, s0, s1, l0, l1; try discriminate.
  all: sim_symex_reads_work; pins_goal.
Qed.

Lemma api_step_keeps_pins_exclusive (c : api_call) (w : world sim_hw) :
  pins_exclusive w -> pins_exclusive (snd (api_step false c w)).
Proof.
  intros Hw. destruct c as [ | line state | line out | line ]; cbn [api_step].
  - apply init_keeps_pins_exclusive, Hw.
  - apply set_select_keeps_pins_exclusive, Hw.
  - pose proof (get_select_same_world line out w) as Hsame.
    destruct (gpio_control_get_select line out w) as [[ret cur] w1].
    cbn [snd] in *. subst w1. exact Hw.
  - unfold gpio_control_toggle_select, gpio_control_toggle_select_from.
    pose proof (get_select_same_world line (Some false) w) as Hsame.
    destruct (gpio_control_get_select line (Some false) w) as [[ret cur] w1].
    cbn [snd] in Hsame. subst w1.
    destruct (ret <? 0); [ exact Hw | ].
    apply set_select_keeps_pins_exclusive, Hw.
Qed.

(** With readback that never errors, no sequence of calls on the hardware
    build drives both pins HIGH, at the end of a call or inside one. *)
Lemma pins_exclusive_all_runs (cs : list api_call) (w : world sim_hw) :
  pins_exclusive w -> pins_exclusive (snd (run_calls false cs w)).
Proof.
  revert w. induction cs as [ | c cs IH ]; intros w Hw; cbn [run_calls].
  - exact Hw.
  - pose proof (api_step_keeps_pins_exclusive c w Hw) as Hstep.
    destruct (api_step false c w) as [ret w1]. cbn [snd] in Hstep.
    specialize (IH w1 Hstep).
    destruct (run_calls false cs w1) as [rets w2]. exact IH.
Qed.

Lemma boot_world_pins_exclusive (wp : list write_fault)
    (rp : list read_fault) :
  Forall (eq ReadOk) rp -> pins_exclusive (boot_world wp rp).
Proof.
  intros Hr. unfold pins_exclusive, boot_world, sim_at_boot; cbn.
  repeat split; try assumption. repeat constructor.
Qed.

(** X26: on the simulated bank [sim_hw], where a write either drives the
    pin and returns 0, returns 0 without driving it, or returns an error and
    leaves the pin as it was, and where a readback that does not return an
    error returns the pin's true level.  From power-on, on the hardware
    build, whatever the scripted write outcomes, when every scripted readback
    is [ReadOk] (so every readback returns the true level): after any
    sequence of calls the pins are not both HIGH, and they were not at any
    point on the way.  The assumption on the readback cannot be dropped:
    after a readback that returns an error the rollback can leave both pins
    HIGH. *)
Lemma pins_safe_when_readback_works (cs : list api_call)
    (wp : list write_fault) (rp : list read_fault) :
  Forall (eq ReadOk) rp ->
  let w := snd (run_calls false cs (boot_world wp rp)) in
  pins_both_high (dev w) = false /\
  Forall (fun sh => pins_both_high (snd sh) = false) (seen w).
Proof.
  intros Hr w.
  destruct (pins_exclusive_all_runs cs (boot_world wp rp)
              (boot_world_pins_exclusive wp rp Hr))
    as (Hnow & H0 & H1 & _ & Hpast).
  fold w in Hnow, H0, H1, Hpast. split; [ | exact Hpast ].
  unfold pins_both_high, both_high in *.
  destruct (level0 (dev w)), (level1 (dev w)),
    (select0_state (vars w)), (select1_state (vars w));
    try reflexivity; discriminate.
Qed.

Section SimFacts.

Variable emul : bool.

(** ** Pre-emption *)

(** C2: from tracked state line0 HIGH, line1 LOW on an initialised
    controller, with every write and readback working,
    [gpio_control_set_select 1 true] returns 0 and makes exactly these driver
    calls, in this order: clear [jtag_select0] and verify it, then set
    [jtag_select1] and verify it (verification reads the pin back, except in
    a [CONFIG_GPIO_EMUL] build where it makes no driver call).  The tracked
    state and the pins end at line0 LOW, line1 HIGH. *)
Theorem preemption_two_writes (w : world sim_hw) :
  vars w =
    {| select0_state := true; select1_state := false;
       initialized := true |} ->
  plan_works (dev w) ->
  let (ret, w') := gpio_control_set_select emul 1 true w in
  ret = 0 /\
  vars w' =
    {| select0_state := false; select1_state := true;
       initialized := true |} /\
  log w' =
    log w ++
    [EvPinSet jtag_select0 0 0] ++
    (if emul then [] else [EvPinGet jtag_select0 0]) ++
    [EvPinSet jtag_select1 1 0] ++
    (if emul then [] else [EvPinGet jtag_select1 1]) /\
  level0 (dev w') = false /\ level1 (dev w') = true.
Proof.
  destruct w as [v [r0 r1 l0 l1 wp rp] l past]; cbn [vars dev log].
  intros -> [Hw Hr]; cbn [write_plan read_plan] in *.
  sim_symex.
  all: repeat split; rewrite <- ?app_assoc; reflexivity.
Qed.

(** ** Rollback *)

(** C3: from tracked state and pins at line0 HIGH, line1 LOW on an
    initialised controller, when the clear of line0 works (write and
    readback), the write of line1 fails with errno [e] and the rollback write
    works, [gpio_control_set_select 1 true] returns [-e] and ends with the
    tracked state and both pins as they were: line0 HIGH, line1 LOW. *)
Theorem rollback_after_failed_write (w : world sim_hw) (e : positive)
    (wp : list write_fault) (rp : list read_fault) :
  vars w =
    {| select0_state := true; select1_state := false;
       initialized := true |} ->
  level0 (dev w) = true ->
  level1 (dev w) = false ->
  write_plan (dev w) = WriteOk :: WriteErr e :: WriteOk :: wp ->
  read_plan (dev w) = ReadOk :: rp ->
  let (ret, w') := gpio_control_set_select emul 1 true w in
  ret = - Z.pos e /\
  vars w' = vars w /\
  level0 (dev w') = true /\ level1 (dev w') = false /\
  log w' =
    log w ++
    [EvPinSet jtag_select0 0 0] ++
    (if emul then [] else [EvPinGet jtag_select0 0]) ++
    [EvPinSet jtag_select1 1 (- Z.pos e); EvPinSet jtag_select0 1 0].
Proof.
  destruct w as [v [r0 r1 l0 l1 wp0 rp0] l past];
    cbn [vars dev log level0 level1 write_plan read_plan].
  intros -> -> -> -> ->.
  sim_symex.
  all: repeat split; rewrite <- ?app_assoc; reflexivity.
Qed.

(** ** Toggle *)

Lemma toggle_once (target : gpio_dt_spec) (w : world sim_hw) :
  initialized (vars w) = true ->
  plan_works (dev w) ->
  let (ret, w1) := gpio_control_toggle_select emul (line_number target) w in
  ret = 0 /\
  tracked target (vars w1) = negb (tracked target (vars w)) /\
  initialized (vars w1) = true /\
  plan_works (dev w1).
Proof.
  destruct w as [[s0 s1 i] [r0 r1 l0 l1 wp rp] l past];
    cbn [vars dev initialized].
  intros -> [Hw Hr]; cbn [write_plan read_plan] in *.
  unfold gpio_control_toggle_select, gpio_control_toggle_select_from,
    gpio_control_get_select, plan_works.
  destruct target, s0, s1; cbn [line_number vars initialized negb orb
    select0_state select1_state Z.ltb Z.compare tracked].
  all: sim_symex.
  all: cbn; repeat split; try reflexivity; plan_tail.
Qed.

(** C8: on an initialised controller with every write and readback
    working, [gpio_control_toggle_select] on a line returns 0 and inverts
    that line's tracked state, and a second toggle of the same line returns
    0 and brings it back: from line0 LOW, the first toggle of line 0 leaves
    it HIGH and the second LOW again. *)
Theorem toggle_twice (target : gpio_dt_spec) (w : world sim_hw) :
  initialized (vars w) = true ->
  plan_works (dev w) ->
  let (ret1, w1) := gpio_control_toggle_select emul (line_number target) w in
  let (ret2, w2) := gpio_control_toggle_select emul (line_number target) w1 in
  ret1 = 0 /\ ret2 = 0 /\
  tracked target (vars w1) = negb (tracked target (vars w)) /\
  tracked target (vars w2) = tracked target (vars w).
Proof.
  intros Hinit Hplan.
  pose proof (toggle_once target w Hinit Hplan) as H1.
  destruct (gpio_control_toggle_select emul (line_number target) w)
    as [ret1 w1].
  destruct H1 as (Hret1 & Hflip1 & Hinit1 & Hplan1).
  pose proof (toggle_once target w1 Hinit1 Hplan1) as H2.
  destruct (gpio_control_toggle_select emul (line_number target) w1)
    as [ret2 w2].
  destruct H2 as (Hret2 & Hflip2 & _ & _).
  repeat split; try assumption.
  rewrite Hflip2, Hflip1. apply negb_involutive.
Qed.

(** ** The line that is not addressed *)

(** C9: when [gpio_control_set_select line state] is called with [state]
    false or with the other line tracked LOW, then, whatever the driver calls
    do and whether the call succeeds or fails, every driver call it makes
    addresses the requested pin, and at every point it passes through, the
    end included, the other line's tracked state and the other pin's level
    are what they were before the call. *)
Theorem other_line_untouched (target : gpio_dt_spec) (state : bool)
    (w : world sim_hw) :
  state = false \/ tracked (other_of target) (vars w) = false ->
  let (ret, w') :=
    gpio_control_set_select emul (line_number target) state w in
  tracked (other_of target) (vars w') = tracked (other_of target) (vars w) /\
  sim_level (dev w') (other_of target) = sim_level (dev w) (other_of target) /\
  (exists new, log w' = log w ++ new /\
     Forall (fun ev => event_spec ev = target) new) /\
  (exists steps, seen w' = seen w ++ steps /\
     Forall (fun sh =>
               tracked (other_of target) (fst sh) =
                 tracked (other_of target) (vars w) /\
               sim_level (snd sh) (other_of target) =
                 sim_level (dev w) (other_of target)) steps).
Proof.
  destruct w as [[s0 s1 i] [r0 r1 l0 l1 wp rp] l past];
    cbn [vars dev log seen].
  intros Hpre.
  assert (Hcases : state = false \/
                   (state = true /\
                    tracked (other_of target)
                      {| select0_state := s0; select1_state := s1;
                         initialized := i |} = false)).
  { destruct state; [ right | left; reflexivity ].
    destruct Hpre as [Hs | Ho]; [ discriminate Hs | auto ]. }
  clear Hpre.
  destruct Hcases as [-> | [-> Ho]]; destruct target;
    cbn [other_of tracked line_number select0_state select1_state] in *;
    subst.
  all: sim_symex_any.
  all: repeat split; try reflexivity.
  all: try (cbn [log]; rewrite <- ?app_assoc; cbn [app];
            eexists; split; [ reflexivity | repeat constructor ]).
  all: try (cbn [seen]; rewrite <- ?app_assoc; cbn [app];
            eexists; split; [ reflexivity | repeat constructor ]).
  all: exists []; split; [ symmetry; apply app_nil_r | constructor ].
Qed.

End SimFacts.

(** * Runs on the simulated bank *)

(** ** The pins can end up both HIGH *)

(** C1, at a failing run of the hardware build ([CONFIG_GPIO_EMUL] not
    defined): init, then line 0 HIGH, then line 1 HIGH, every driver call
    working except the last readback, which returns [-EIO] after
    [jtag_select1] has been driven HIGH.  The ROLLBACK block then drives
    [jtag_select0] HIGH again: the call returns [-EIO], the tracked state is
    line0 HIGH, line1 LOW, and both pins are HIGH. *)
Theorem rollback_raises_both_pins :
  let run :=
    run_calls false
      [CallInit; CallSetSelect 0 true; CallSetSelect 1 true]
      (boot_world [] [ReadOk; ReadOk; ReadOk; ReadOk; ReadErr 5]) in
  fst run = [0; 0; - EIO] /\
  vars (snd run) =
    {| select0_state := true; select1_state := false;
       initialized := true |} /\
  level0 (dev (snd run)) = true /\
  level1 (dev (snd run)) = true /\
  pins_both_high (dev (snd run)) = true /\
  log (snd run) =
    [EvIsReady jtag_select0 true; EvIsReady jtag_select1 true;
     EvConfigure jtag_select0 0; EvPinGet jtag_select0 0;
     EvConfigure jtag_select1 0; EvPinGet jtag_select1 0;
     EvPinSet jtag_select0 1 0; EvPinGet jtag_select0 1;
     EvPinSet jtag_select0 0 0; EvPinGet jtag_select0 0;
     EvPinSet jtag_select1 1 0; EvPinGet jtag_select1 (- EIO);
     EvPinSet jtag_select0 1 0].
Proof. vm_compute. repeat split; reflexivity. Qed.

(** The same defect without any pre-emption: a readback error after line 0
    was driven HIGH leaves [select0_state] false over a HIGH pin, and
    a later [gpio_control_set_select 1 true] sees no reason to clear it. *)
Example unverified_write_raises_both_pins :
  let run :=
    run_calls false
      [CallInit; CallSetSelect 0 true; CallSetSelect 1 true]
      (boot_world [] [ReadOk; ReadOk; ReadErr 5]) in
  fst run = [0; - EIO; 0] /\
  vars (snd run) =
    {| select0_state := false; select1_state := true;
       initialized := true |} /\
  pins_both_high (dev (snd run)) = true.
Proof. vm_compute. repeat split; reflexivity. Qed.

(** ** The result does not tell the cause *)

(** C6, where it does not hold: four failing calls with four different causes
    and two results.  An uninitialised controller and an invalid line both
    give [-EINVAL]; a failed write on line 0 (driver errno [EIO]) and a
    failed verification on line 1 both give [-EIO]. *)
Lemma failure_cause_not_in_result :
  initialized (vars (boot_world [] [])) = false /\
  fst (gpio_control_set_select false 0 true (boot_world [] [])) = - EINVAL /\
  initialized (vars (ready_world false [] [])) = true /\
  fst (gpio_control_set_select false 2 true (ready_world false [] []))
    = - EINVAL /\
  fst (gpio_control_set_select false 0 true
         (ready_world false [WriteOk; WriteOk; WriteErr 5] []))
    = - EIO /\
  log (snd (gpio_control_set_select false 0 true
              (ready_world false [WriteOk; WriteOk; WriteErr 5] [])))
    = log (ready_world false [WriteOk; WriteOk; WriteErr 5] []) ++
      [EvPinSet jtag_select0 1 (- EIO)] /\
  fst (gpio_control_set_select false 1 true
         (ready_world false [] [ReadOk; ReadOk; ReadErr 13]))
    = - EIO /\
  log (snd (gpio_control_set_select false 1 true
              (ready_world false [] [ReadOk; ReadOk; ReadErr 13])))
    = log (ready_world false [] [ReadOk; ReadOk; ReadErr 13]) ++
      [EvPinSet jtag_select1 1 0; EvPinGet jtag_select1 (-13)].
Proof. vm_compute. repeat split; reflexivity. Qed.

(** * Instances on concrete runs *)

Lemma invalid_line_rejected_witness :
  gpio_control_set_select false 5 true (ready_world false [] [])
    = (- EINVAL, ready_world false [] []) /\
  gpio_control_get_select 5 (Some false) (ready_world false [] [])
    = (- EINVAL, Some false, ready_world false [] []).
Proof.
  apply (invalid_line_rejected false 5 true (Some false)
           (ready_world false [] [])); lia.
Defined.

Lemma init_twice_witness :
  vars (ready_world false [] []) =
    {| select0_state := false; select1_state := false;
       initialized := true |} /\
  gpio_control_init false (ready_world false [] [])
    = (0, ready_world false [] []).
Proof.
  apply (init_twice false (boot_world [] [])); reflexivity.
Defined.

Lemma preemption_clear_failure_witness :
  let w := line0_high_world false [WriteOk; WriteOk; WriteOk; WriteErr 5] [] in
  let (ret, w') := gpio_control_set_select false 1 true w in
  ret < 0 /\
  ret = - EIO /\
  vars w' = vars w /\
  log w' = log w ++ [EvPinSet jtag_select0 0 (- EIO)].
Proof.
  apply (preemption_clear_failure false jtag_select1
           (line0_high_world false [WriteOk; WriteOk; WriteOk; WriteErr 5] [])
           (- EIO)
           1
           (snd (gpio_pin_set_dt
                   (dev (line0_high_world false
                           [WriteOk; WriteOk; WriteOk; WriteErr 5] []))
                   jtag_select0 0))
           (snd (gpio_pin_get_dt
                   (snd (gpio_pin_set_dt
                           (dev (line0_high_world false
                                   [WriteOk; WriteOk; WriteOk; WriteErr 5] []))
                           jtag_select0 0))
                   jtag_select0))).
  - reflexivity.
  - reflexivity.
  - reflexivity.
  - reflexivity.
  - left. vm_compute. reflexivity.
Defined.

Lemma preemption_two_writes_witness :
  let w := line0_high_world false [] [] in
  let (ret, w') := gpio_control_set_select false 1 true w in
  ret = 0 /\
  vars w' =
    {| select0_state := false; select1_state := true;
       initialized := true |} /\
  log w' =
    log w ++
    [EvPinSet jtag_select0 0 0; EvPinGet jtag_select0 0;
     EvPinSet jtag_select1 1 0; EvPinGet jtag_select1 1] /\
  level0 (dev w') = false /\ level1 (dev w') = true.
Proof.
  apply (preemption_two_writes false (line0_high_world false [] [])).
  - reflexivity.
  - split; constructor.
Defined.

Lemma rollback_after_failed_write_witness :
  let w :=
    line0_high_world false
      [WriteOk; WriteOk; WriteOk; WriteOk; WriteErr 5; WriteOk]
      [ReadOk; ReadOk; ReadOk; ReadOk] in
  let (ret, w') := gpio_control_set_select false 1 true w in
  ret = - EIO /\
  vars w' = vars w /\
  level0 (dev w') = true /\ level1 (dev w') = false /\
  log w' =
    log w ++
    [EvPinSet jtag_select0 0 0; EvPinGet jtag_select0 0;
     EvPinSet jtag_select1 1 (- EIO); EvPinSet jtag_select0 1 0].
Proof.
  apply (rollback_after_failed_write false
           (line0_high_world false
              [WriteOk; WriteOk; WriteOk; WriteOk; WriteErr 5; WriteOk]
              [ReadOk; ReadOk; ReadOk; ReadOk])
           5%positive [] []); reflexivity.
Defined.

Lemma toggle_twice_witness :
  let w := ready_world false [] [] in
  let (ret1, w1) := gpio_control_toggle_select false 0 w in
  let (ret2, w2) := gpio_control_toggle_select false 0 w1 in
  ret1 = 0 /\ ret2 = 0 /\
  select0_state (vars w1) = negb (select0_state (vars w)) /\
  select0_state (vars w2) = select0_state (vars w).
Proof.
  apply (toggle_twice false jtag_select0 (ready_world false [] [])).
  - reflexivity.
  - split; constructor.
Defined.

Lemma other_line_untouched_witness :
  let (ret, w') :=
    gpio_control_set_select false (line_number jtag_select1) false
      (line0_high_world false [] []) in
  tracked (other_of jtag_select1) (vars w') =
    tracked (other_of jtag_select1) (vars (line0_high_world false [] [])) /\
  sim_level (dev w') (other_of jtag_select1) =
    sim_level (dev (line0_high_world false [] [])) (other_of jtag_select1) /\
  (exists new, log w' = log (line0_high_world false [] []) ++ new /\
     Forall (fun ev => event_spec ev = jtag_select1) new) /\
  (exists steps, seen w' = seen (line0_high_world false [] []) ++ steps /\
     Forall (fun sh =>
               tracked (other_of jtag_select1) (fst sh) =
                 tracked (other_of jtag_select1)
                   (vars (line0_high_world false [] [])) /\
               sim_level (snd sh) (other_of jtag_select1) =
                 sim_level (dev (line0_high_world false [] []))
                   (other_of jtag_select1)) steps).
Proof.
  apply (other_line_untouched false jtag_select1 false
           (line0_high_world false [] [])).
  left. reflexivity.
Defined.

(** * Further facts over every driver *)

Section ControllerOutcomes.

Context {H : Type} {drv : GpioDriver H}.
Variable emul : bool.

(** ** Before initialisation *)

Lemma set_select_uninitialized (select_line : Z) (state : bool)
    (w : world H) :
  initialized (vars w) = false ->
  gpio_control_set_select emul select_line state w = (- EINVAL, w).
Proof.
  intros Hinit.
  unfold gpio_control_set_select, gpio_control_set_select_body, call, bind,
    load_initialized, return_.
  rewrite Hinit. reflexivity.
Qed.

Lemma get_select_uninitialized (select_line : Z) (out : option bool)
    (w : world H) :
  initialized (vars w) = false ->
  gpio_control_get_select select_line out w = (- EINVAL, out, w).
Proof.
  intros Hinit. unfold gpio_control_get_select. rewrite Hinit. reflexivity.
Qed.

Lemma toggle_select_uninitialized (select_line : Z) (w : world H) :
  initialized (vars w) = false ->
  gpio_control_toggle_select emul select_line w = (- EINVAL, w).
Proof.
  intros Hinit.
  unfold gpio_control_toggle_select, gpio_control_toggle_select_from.
  rewrite get_select_uninitialized by exact Hinit. reflexivity.
Qed.

(** X1: while [initialized] is false, [gpio_control_set_select],
    [gpio_control_get_select] and [gpio_control_toggle_select] return
    [-EINVAL] for every argument and hand back the world they were given: no
    driver call, no change of tracked state, nothing written through the
    output pointer. *)
Theorem uninitialized_rejects_all (select_line : Z) (state : bool)
    (out : option bool) (w : world H) :
  initialized (vars w) = false ->
  gpio_control_set_select emul select_line state w = (- EINVAL, w) /\
  gpio_control_get_select select_line out w = (- EINVAL, out, w) /\
  gpio_control_toggle_select emul select_line w = (- EINVAL, w).
Proof.
  intros Hinit. repeat apply conj.
  - apply set_select_uninitialized, Hinit.
  - apply get_select_uninitialized, Hinit.
  - apply toggle_select_uninitialized, Hinit.
Qed.

(** ** What [gpio_control_init] leaves behind *)

Lemma init_summary (w : world H) :
  let (ret, w') := gpio_control_init emul w in
  (ret = 0 /\ initialized (vars w') = true) \/
  (ret < 0 /\ initialized (vars w) = false /\ vars w' = vars w).
Proof.
  destruct w as [v h l past]; cbn [vars].
  symex; tests_to_Z.
  all: first [ left; split; [ reflexivity | solve [ auto ] ]
             | right; repeat apply conj; solve [ lia | auto ] ].
Qed.

(** X2: [gpio_control_init] returns 0 or a negative errno.  When it returns
    0 the controller is initialised; when it fails the controller was and
    stays uninitialised and no tracked variable has changed, whichever step
    failed. *)
Theorem init_outcome (w : world H) :
  let (ret, w') := gpio_control_init emul w in
  (ret = 0 /\ initialized (vars w') = true) \/
  (ret < 0 /\ initialized (vars w) = false /\ vars w' = vars w).
Proof. exact (init_summary w). Qed.

Lemma init_makes_no_pin_set (w : world H) :
  exists new,
    log (snd (gpio_control_init emul w)) = log w ++ new /\
    Forall (fun ev => match ev with EvPinSet _ _ _ => False | _ => True end)
      new.
Proof.
  destruct w as [v h l past]; cbn [log].
  symex.
  all: cbn [log]; rewrite <- ?app_assoc; cbn [app].
  all: first [ eexists; split; [ reflexivity | repeat constructor ]
             | exists []; split; [ symmetry; apply app_nil_r | constructor ] ].
Qed.

(** X3: when either GPIO device is not ready, [gpio_control_init] on an
    uninitialised controller returns [-ENODEV] having only asked for
    readiness: the hardware is the one it was given, no pin was configured,
    written or read, and the tracked variables are unchanged. *)
Theorem init_device_not_ready (w : world H) :
  initialized (vars w) = false ->
  gpio_is_ready_dt (dev w) jtag_select0 = false \/
  gpio_is_ready_dt (dev w) jtag_select1 = false ->
  let (ret, w') := gpio_control_init emul w in
  ret = - ENODEV /\ vars w' = vars w /\ dev w' = dev w /\
  exists new, log w' = log w ++ new /\
    Forall (fun ev => match ev with EvIsReady _ _ => True | _ => False end)
      new.
Proof.
  destruct w as [v h l past]; cbn [vars dev log].
  intros Hinit Hready.
  unfold_bodies. rewrite Hinit. reduce_world.
  destruct (gpio_is_ready_dt h jtag_select0) eqn:E0; reduce_world.
  - destruct Hready as [Hr | Hr]; [ discriminate Hr | ].
    rewrite Hr. reduce_world.
    repeat apply conj; try reflexivity.
    rewrite <- app_assoc. eexists; split; [ reflexivity | ].
    repeat constructor.
  - repeat apply conj; try reflexivity.
    eexists; split; [ reflexivity | ]. repeat constructor.
Qed.

(** ** What [gpio_control_set_select] leaves behind *)

Lemma set_select_summary (target : gpio_dt_spec) (state : bool)
    (w : world H) :
  let (ret, w') :=
    gpio_control_set_select emul (line_number target) state w in
  initialized (vars w') = initialized (vars w) /\
  ((ret = 0 /\ initialized (vars w) = true /\
    tracked target (vars w') = state /\
    tracked (other_of target) (vars w') =
      (if state then false else tracked (other_of target) (vars w))) \/
   (ret < 0 /\
    tracked target (vars w') = tracked target (vars w) /\
    (tracked (other_of target) (vars w') =
       tracked (other_of target) (vars w) \/
     tracked (other_of target) (vars w') = false))).
Proof.
  destruct w as [[s0 s1 i] h l past];
    destruct target, state; cbn [vars line_number other_of].
  all: symex; tests_to_Z; cbn in *; split;
    try reflexivity; try assumption.
  all: first [ left; repeat apply conj; solve [ reflexivity | assumption ]
             | right; repeat apply conj;
               solve [ lia | reflexivity | auto ] ].
Qed.

(** X4: [gpio_control_set_select] on line 0 or 1 returns 0 or a negative
    errno and never changes [initialized].  When it returns 0 the controller
    was initialised, the requested line is tracked at the requested state,
    and the other line is tracked LOW if the request was HIGH and unchanged
    otherwise.  When it fails the requested line's tracked state is the one
    before the call, and the other line's is either unchanged or LOW. *)
Theorem set_select_outcome (target : gpio_dt_spec) (state : bool)
    (w : world H) :
  let (ret, w') :=
    gpio_control_set_select emul (line_number target) state w in
  initialized (vars w') = initialized (vars w) /\
  ((ret = 0 /\ initialized (vars w) = true /\
    tracked target (vars w') = state /\
    tracked (other_of target) (vars w') =
      (if state then false else tracked (other_of target) (vars w))) \/
   (ret < 0 /\
    tracked target (vars w') = tracked target (vars w) /\
    (tracked (other_of target) (vars w') =
       tracked (other_of target) (vars w) \/
     tracked (other_of target) (vars w') = false))).
Proof. exact (set_select_summary target state w). Qed.

Lemma get_select_reads_tracked (target : gpio_dt_spec) (junk : bool)
    (w : world H) :
  initialized (vars w) = true ->
  gpio_control_get_select (line_number target) (Some junk) w
    = (0, Some (tracked target (vars w)), w).
Proof.
  intros Hinit. unfold gpio_control_get_select. rewrite Hinit.
  destruct target; reflexivity.
Qed.

(** X5: a [gpio_control_set_select] on line 0 or 1 that returns 0 is seen by
    the next [gpio_control_get_select] of that line: it returns 0, writes
    the state just set through the pointer, and makes no driver call. *)
Theorem set_then_get (target : gpio_dt_spec) (state junk : bool)
    (w : world H) :
  fst (gpio_control_set_select emul (line_number target) state w) = 0 ->
  let w' := snd (gpio_control_set_select emul (line_number target) state w) in
  gpio_control_get_select (line_number target) (Some junk) w'
    = (0, Some state, w').
Proof.
  intros Hret.
  pose proof (set_select_summary target state w) as Hout.
  destruct (gpio_control_set_select emul (line_number target) state w)
    as [ret w']. cbn [fst snd] in *.
  destruct Hout as [Hinit [(_ & Hi & Ht & _) | (Hneg & _)]]; [ | lia ].
  rewrite get_select_reads_tracked by (rewrite Hinit; exact Hi).
  rewrite Ht. reflexivity.
Qed.

(** X27: [gpio_control_set_select] touches the hardware through
    [gpio_pin_set_dt] and [gpio_pin_get_dt] only, never reconfiguring a pin
    or asking for readiness, and makes at most five driver calls: the clear
    and its readback, the write and its readback, and one rollback write. *)
Theorem set_select_call_budget (select_line : Z) (state : bool)
    (w : world H) :
  exists new,
    log (snd (gpio_control_set_select emul select_line state w))
      = log w ++ new /\
    (length new <= 5)%nat /\
    Forall (fun ev =>
              match ev with
              | EvPinSet _ _ _ | EvPinGet _ _ => True
              | _ => False
              end) new.
Proof.
  destruct (Z.eq_dec select_line 0) as [-> | Hn0];
    [ | destruct (Z.eq_dec select_line 1) as [-> | Hn1] ].
  3: { rewrite (set_select_invalid_line emul select_line state w Hn0 Hn1).
       exists []. cbn [snd length]. rewrite app_nil_r.
       repeat apply conj; [ reflexivity | lia | constructor ]. }
  all: destruct w as [v h l past]; cbn [log].
  all: symex.
  all: cbn [log]; rewrite <- ?app_assoc; cbn [app].
  all: first
    [ eexists; repeat apply conj;
      [ reflexivity | cbn [length]; lia | repeat constructor ]
    | exists []; rewrite app_nil_r;
      repeat apply conj; [ reflexivity | cbn [length]; lia | constructor ] ].
Qed.

(** ** What [gpio_control_toggle_select] leaves behind *)

Lemma toggle_select_summary (target : gpio_dt_spec) (w : world H) :
  let (ret, w') := gpio_control_toggle_select emul (line_number target) w in
  initialized (vars w') = initialized (vars w) /\
  ((ret = 0 /\ initialized (vars w) = true /\
    tracked target (vars w') = negb (tracked target (vars w))) \/
   (ret < 0 /\ tracked target (vars w') = tracked target (vars w))).
Proof.
  destruct (initialized (vars w)) eqn:Hinit.
  - unfold gpio_control_toggle_select, gpio_control_toggle_select_from.
    rewrite get_select_reads_tracked by exact Hinit.
    cbn [Z.ltb Z.compare].
    pose proof (set_select_summary target
                  (negb (tracked target (vars w))) w) as Hout.
    destruct (gpio_control_set_select emul (line_number target)
                (negb (tracked target (vars w))) w) as [ret w'].
    destruct Hout as [Hi [(Hret & _ & Ht & _) | (Hneg & Ht & _)]].
    + rewrite Hi, Hinit. split; [ reflexivity | left; auto ].
    + rewrite Hi, Hinit. split; [ reflexivity | right; auto ].
  - rewrite toggle_select_uninitialized by exact Hinit.
    split; [ exact Hinit | right ].
    split; [ unfold EINVAL; lia | reflexivity ].
Qed.

(** X6: [gpio_control_toggle_select] on line 0 or 1 returns 0 or a negative
    errno, whatever the hardware does.  When it returns 0 the line's tracked
    state is the opposite of what it was; when it fails the line's tracked
    state is what it was. *)
Theorem toggle_select_outcome (target : gpio_dt_spec) (w : world H) :
  let (ret, w') := gpio_control_toggle_select emul (line_number target) w in
  (ret = 0 /\
   tracked target (vars w') = negb (tracked target (vars w))) \/
  (ret < 0 /\ tracked target (vars w') = tracked target (vars w)).
Proof.
  pose proof (toggle_select_summary target w) as Hout.
  destruct (gpio_control_toggle_select emul (line_number target) w)
    as [ret w'].
  destruct Hout as [_ [(Hret & _ & Ht) | (Hneg & Ht)]]; auto.
Qed.

(** ** [initialized] is never cleared *)

Lemma set_select_keeps_initialized (select_line : Z) (state : bool)
    (w : world H) :
  initialized (vars (snd (gpio_control_set_select emul select_line state w)))
    = initialized (vars w).
Proof.
  destruct (Z.eq_dec select_line 0) as [-> | Hn0];
    [ | destruct (Z.eq_dec select_line 1) as [-> | Hn1] ].
  - pose proof (set_select_summary jtag_select0 state w) as Hout.
    cbn [line_number] in Hout.
    destruct (gpio_control_set_select emul 0 state w) as [ret w'].
    apply Hout.
  - pose proof (set_select_summary jtag_select1 state w) as Hout.
    cbn [line_number] in Hout.
    destruct (gpio_control_set_select emul 1 state w) as [ret w'].
    apply Hout.
  - rewrite (set_select_invalid_line emul select_line state w Hn0 Hn1).
    reflexivity.
Qed.

Lemma api_step_keeps_initialized (c : api_call) (w : world H) :
  initialized (vars w) = true ->
  initialized (vars (snd (api_step emul c w))) = true.
Proof.
  intros Hinit.
  destruct c as [ | line state | line out | line ]; cbn [api_step].
  - rewrite init_when_initialized by exact Hinit. exact Hinit.
  - rewrite set_select_keeps_initialized. exact Hinit.
  - pose proof (get_select_same_world line out w) as Hsame.
    destruct (gpio_control_get_select line out w) as [[ret cur] w1].
    cbn [snd] in *. subst w1. exact Hinit.
  - unfold gpio_control_toggle_select, gpio_control_toggle_select_from.
    pose proof (get_select_same_world line (Some false) w) as Hsame.
    destruct (gpio_control_get_select line (Some false) w) as [[ret cur] w1].
    cbn [snd] in Hsame. subst w1.
    destruct (ret <? 0); [ exact Hinit | ].
    rewrite set_select_keeps_initialized. exact Hinit.
Qed.

(** X7: once the controller is initialised it stays initialised: no
    sequence of init, set, get and toggle calls, with any arguments and any
    hardware behaviour, brings [initialized] back to false. *)
Theorem initialized_is_permanent (cs : list api_call) (w : world H) :
  initialized (vars w) = true ->
  initialized (vars (snd (run_calls emul cs w))) = true.
Proof.
  revert w. induction cs as [ | c cs IH ]; intros w Hinit; cbn [run_calls].
  - exact Hinit.
  - pose proof (api_step_keeps_initialized c w Hinit) as Hstep.
    destruct (api_step emul c w) as [ret w1]. cbn [snd] in Hstep.
    specialize (IH w1 Hstep).
    destruct (run_calls emul cs w1) as [rets w2]. exact IH.
Qed.

End ControllerOutcomes.

(** * Further facts over the simulated GPIO bank *)

(** ** Initialisation checks the pins *)

(** X8: in the hardware build, when readback returns the pins' levels, a
    [gpio_control_init] of an uninitialised controller that returns 0 has
    both pins LOW, whatever the configure calls did: a configure that
    reported success without driving the pin is caught by the readback. *)
Theorem init_success_pins_low (w : world sim_hw) :
  initialized (vars w) = false ->
  Forall (eq ReadOk) (read_plan (dev w)) ->
  fst (gpio_control_init false w) = 0 ->
  level0 (dev (snd (gpio_control_init false w))) = false /\
  level1 (dev (snd (gpio_control_init false w))) = false.
Proof.
  destruct w as [[s0 s1 i] [r0 r1 l0 l1 wp rp] l past].
  cbn [vars dev initialized read_plan]. intros -> Hr.
  destruct l0, l1.
  all: sim_symex_reads_work; cbn; intros Hret;
    first [ split; reflexivity | discriminate Hret ].
Qed.

(** ** Tracked state mirrors the pins when faults are reported *)

Lemma honest_hd (p : list write_fault) :
  Forall (fun f => f <> WriteLost) p -> hd WriteOk p <> WriteLost.
Proof. destruct 1; [ discriminate | assumption ]. Qed.

Lemma honest_tl (p : list write_fault) :
  Forall (fun f => f <> WriteLost) p ->
  Forall (fun f => f <> WriteLost) (tl p).
Proof. destruct 1; [ constructor | assumption ]. Qed.

Ltac honest_tail := repeat apply honest_tl; assumption.

(** Split on the next write outcome, which is not a lost write. *)
Ltac pop_honest :=
  match goal with
  | |- context [match hd WriteOk ?p with _ => _ end] =>
      let E := fresh "Eplan" in
      let N := fresh "Hhonest" in
      assert (N : hd WriteOk p <> WriteLost) by (apply honest_hd; honest_tail);
      destruct (hd WriteOk p) eqn:E; [ | congruence | ]; clear N
  end.

Ltac sim_symex_honest :=
  unfold_bodies; sim_reduce;
  repeat (first [ pop_plan | pop_honest | split_branch ]; sim_reduce).

Ltac mirror_goal :=
  unfold pins_mirror_tracked;
  cbn [vars dev write_plan read_plan level0 level1 select0_state
       select1_state initialized];
  refine (conj _ (conj _ (conj _ (conj _ _))));
  [ reflexivity
  | reflexivity
  | first [ assumption | discriminate | intros _; split; reflexivity ]
  | honest_tail
  | plan_tail ].

Section MirrorFacts.

Variable emul : bool.

Lemma init_keeps_mirror (w : world sim_hw) :
  pins_mirror_tracked w ->
  pins_mirror_tracked (snd (gpio_control_init emul w)).
Proof.
  destruct w as [[s0 s1 i] [r0 r1 l0 l1 wp rp] l past].
  intros (H0 & H1 & Hboot & Hw & Hr);
    cbn [vars dev write_plan read_plan level0 level1 select0_state
         select1_state initialized] in *.
  subst l0 l1.
  destruct i.
  - sim_symex_honest; mirror_goal.
  - destruct (Hboot eq_refl) as [-> ->].
    sim_symex_honest; mirror_goal.
Qed.

Lemma set_select_keeps_mirror (select_line : Z) (state : bool)
    (w : world sim_hw) :
  pins_mirror_tracked w ->
  pins_mirror_tracked (snd (gpio_control_set_select emul select_line state w)).
Proof.
  intros Hm.
  destruct (Z.eq_dec select_line 0) as [-> | Hn0];
    [ | destruct (Z.eq_dec select_line 1) as [-> | Hn1] ].
  3: { rewrite (set_select_invalid_line emul select_line state w Hn0 Hn1).
       exact Hm. }
  all: destruct w as [[s0 s1 i] [r0 r1 l0 l1 wp rp] l past].
  all: destruct Hm as (H0 & H1 & Hboot & Hw & Hr);
    cbn [vars dev write_plan read_plan level0 level1 select0_state
         select1_state initialized] in *.
  all: subst l0 l1; destruct i;
    [ | destruct (Hboot eq_refl) as [-> ->] ].
  all: destruct state; try destruct s0; try destruct s1.
  all: sim_symex_honest; mirror_goal.
Qed.

Lemma api_step_keeps_mirror (c : api_call) (w : world sim_hw) :
  pins_mirror_tracked w -> pins_mirror_tracked (snd (api_step emul c w)).
Proof.
  intros Hm. destruct c as [ | line state | line out | line ]; cbn [api_step].
  - apply init_keeps_mirror, Hm.
  - apply set_select_keeps_mirror, Hm.
  - pose proof (get_select_same_world line out w) as Hsame.
    destruct (gpio_control_get_select line out w) as [[ret cur] w1].
    cbn [snd] in *. subst w1. exact Hm.
  - unfold gpio_control_toggle_select, gpio_control_toggle_select_from.
    pose proof (get_select_same_world line (Some false) w) as Hsame.
    destruct (gpio_control_get_select line (Some false) w) as [[ret cur] w1].
    cbn [snd] in Hsame. subst w1.
    destruct (ret <? 0); [ exact Hm | ].
    apply set_select_keeps_mirror, Hm.
Qed.

Lemma mirror_all_runs (cs : list api_call) (w : world sim_hw) :
  pins_mirror_tracked w -> pins_mirror_tracked (snd (run_calls emul cs w)).
Proof.
  revert w. induction cs as [ | c cs IH ]; intros w Hm; cbn [run_calls].
  - exact Hm.
  - pose proof (api_step_keeps_mirror c w Hm) as Hstep.
    destruct (api_step emul c w) as [ret w1]. cbn [snd] in Hstep.
    specialize (IH w1 Hstep).
    destruct (run_calls emul cs w1) as [rets w2]. exact IH.
Qed.

(** X9: from power-on, in either build, when no write is silently lost
    (each either drives the pin or returns an error) and readback returns
    the pins' levels, the tracked state equals the pins' levels after every
    sequence of calls: [select0_state] is the level of [jtag_select0] and
    [select1_state] that of [jtag_select1]. *)
Theorem tracked_state_mirrors_pins (cs : list api_call)
    (wp : list write_fault) (rp : list read_fault) :
  Forall (fun f => f <> WriteLost) wp ->
  Forall (eq ReadOk) rp ->
  let w := snd (run_calls emul cs (boot_world wp rp)) in
  level0 (dev w) = select0_state (vars w) /\
  level1 (dev w) = select1_state (vars w).
Proof.
  intros Hw Hr w.
  assert (Hboot : pins_mirror_tracked (boot_world wp rp)).
  { unfold pins_mirror_tracked, boot_world, sim_at_boot; cbn.
    refine (conj _ (conj _ (conj _ (conj _ _))));
      [ reflexivity | reflexivity | intros _; split; reflexivity
      | assumption | assumption ]. }
  destruct (mirror_all_runs cs (boot_world wp rp) Hboot) as (H0 & H1 & _).
  split; assumption.
Qed.

End MirrorFacts.

Section MoreSimFacts.

Variable emul : bool.

(** ** A set that needs no pre-emption *)

(** X10: on an initialised controller with every write and readback
    working, [gpio_control_set_select] with the requested state LOW or the
    other line tracked LOW returns 0 after exactly one write sequence: one
    [gpio_pin_set_dt] on the requested pin and, outside a
    [CONFIG_GPIO_EMUL] build, its readback.  The requested line's tracked
    state and pin are then at the requested state and the other line's
    tracked state is unchanged. *)
Theorem set_without_preemption (target : gpio_dt_spec) (state : bool)
    (w : world sim_hw) :
  initialized (vars w) = true ->
  state = false \/ tracked (other_of target) (vars w) = false ->
  plan_works (dev w) ->
  let (ret, w') :=
    gpio_control_set_select emul (line_number target) state w in
  ret = 0 /\
  log w' =
    log w ++
    EvPinSet target (if state then 1 else 0) 0 ::
    (if emul then [] else [EvPinGet target (if state then 1 else 0)]) /\
  tracked target (vars w') = state /\
  sim_level (dev w') target = state /\
  tracked (other_of target) (vars w') = tracked (other_of target) (vars w).
Proof.
  destruct w as [[s0 s1 i] [r0 r1 l0 l1 wp rp] l past];
    cbn [vars dev log initialized].
  intros -> Hpre [Hw Hr]; cbn [write_plan read_plan] in *.
  destruct target, state;
    cbn [other_of tracked line_number select0_state select1_state] in *;
    try (destruct Hpre as [Hpre | Hpre]; [ discriminate Hpre | subst ]).
  all: sim_symex.
  all: repeat apply conj; rewrite <- ?app_assoc; reflexivity.
Qed.

(** ** When the rollback write fails too *)

(** X11: from tracked state and pins at line0 HIGH, line1 LOW, when the
    clear of line0 works, the write of line1 fails with errno [e] and the
    rollback write fails as well, [gpio_control_set_select 1 true] returns
    [-e], makes no further driver call after the failed rollback write, and
    leaves both lines LOW, tracked and on the pins: line0 has lost its
    selection but the pins are in a permitted state. *)
Theorem failed_rollback_leaves_both_low (w : world sim_hw)
    (e e' : positive) (wp : list write_fault) (rp : list read_fault) :
  vars w =
    {| select0_state := true; select1_state := false;
       initialized := true |} ->
  level0 (dev w) = true ->
  level1 (dev w) = false ->
  write_plan (dev w) = WriteOk :: WriteErr e :: WriteErr e' :: wp ->
  read_plan (dev w) = ReadOk :: rp ->
  let (ret, w') := gpio_control_set_select emul 1 true w in
  ret = - Z.pos e /\
  vars w' =
    {| select0_state := false; select1_state := false;
       initialized := true |} /\
  level0 (dev w') = false /\ level1 (dev w') = false /\
  log w' =
    log w ++
    [EvPinSet jtag_select0 0 0] ++
    (if emul then [] else [EvPinGet jtag_select0 0]) ++
    [EvPinSet jtag_select1 1 (- Z.pos e);
     EvPinSet jtag_select0 1 (- Z.pos e')].
Proof.
  destruct w as [v [r0 r1 l0 l1 wp0 rp0] l past];
    cbn [vars dev log level0 level1 write_plan read_plan].
  intros -> -> -> -> ->.
  sim_symex.
  all: repeat apply conj; rewrite <- ?app_assoc; reflexivity.
Qed.

End MoreSimFacts.

(** ** Rollback after a write that did not take effect *)

(** X12: in the hardware build, from tracked state and pins at line0 HIGH,
    line1 LOW, when the clear of line0 works, the write of line1 reports
    success without driving the pin and readback returns the pins' levels:
    verification finds line1 LOW, [gpio_control_set_select 1 true] returns
    [-EIO], the rollback write restores line0, and tracked state and pins
    end as they were, line0 HIGH, line1 LOW. *)
Theorem rollback_after_lost_write (w : world sim_hw)
    (wp : list write_fault) (rp : list read_fault) :
  vars w =
    {| select0_state := true; select1_state := false;
       initialized := true |} ->
  level0 (dev w) = true ->
  level1 (dev w) = false ->
  write_plan (dev w) = WriteOk :: WriteLost :: WriteOk :: wp ->
  read_plan (dev w) = ReadOk :: ReadOk :: rp ->
  let (ret, w') := gpio_control_set_select false 1 true w in
  ret = - EIO /\
  vars w' = vars w /\
  level0 (dev w') = true /\ level1 (dev w') = false /\
  log w' =
    log w ++
    [EvPinSet jtag_select0 0 0; EvPinGet jtag_select0 0;
     EvPinSet jtag_select1 1 0; EvPinGet jtag_select1 0;
     EvPinSet jtag_select0 1 0].
Proof.
  destruct w as [v [r0 r1 l0 l1 wp0 rp0] l past];
    cbn [vars dev log level0 level1 write_plan read_plan].
  intros -> -> -> -> ->.
  sim_symex.
  repeat apply conj; rewrite <- ?app_assoc; reflexivity.
Qed.

(** * Facts about the callers *)

(** ** The boot sequence *)

Lemma statics_by_fields (s : statics) (b0 b1 i : bool) :
  select0_state s = b0 -> select1_state s = b1 -> initialized s = i ->
  s = {| select0_state := b0; select1_state := b1; initialized := i |}.
Proof. destruct s; cbn; intros -> -> ->; reflexivity. Qed.

Section BootFacts.

Context {H : Type} {drv : GpioDriver H}.
Variable emul : bool.

Lemma set_low_keeps_all_low (target : gpio_dt_spec) (w : world H) :
  vars w =
    {| select0_state := false; select1_state := false;
       initialized := true |} ->
  vars (snd (gpio_control_set_select emul (line_number target) false w)) =
    {| select0_state := false; select1_state := false;
       initialized := true |}.
Proof.
  intros Hv.
  pose proof (set_select_summary emul target false w) as Hout.
  destruct (gpio_control_set_select emul (line_number target) false w)
    as [ret w']. cbn [snd].
  rewrite Hv in Hout.
  destruct Hout as [Hi [(_ & _ & Ht & Ho) | (_ & Ht & Ho)]].
  - destruct target; cbn [tracked other_of select0_state select1_state] in *;
      apply statics_by_fields; assumption.
  - assert (Ho' : tracked (other_of target) (vars w') = false)
      by (destruct Ho as [Ho | Ho]; [ rewrite Ho; destruct target | ];
          auto).
    destruct target; cbn [tracked other_of select0_state select1_state] in *;
      apply statics_by_fields; assumption.
Qed.

(** X13: the boot sequence of [main], started with the file-scope
    variables as the program has them at its start.  When
    [gpio_control_init] fails, [main] returns its negative result with the
    controller uninitialised and without any [gpio_pin_set_dt] having been
    made.  Otherwise [main] goes on with the controller initialised and both
    lines tracked LOW (connector 0), whatever the two
    [gpio_control_set_select] calls returned. *)
Theorem boot_leaves_lines_low (w : world H) :
  vars w = statics_at_boot ->
  match main_gpio_setup emul w with
  | (Return ret, w') =>
      ret < 0 /\ vars w' = statics_at_boot /\
      exists new, log w' = log w ++ new /\
        Forall (fun ev =>
                  match ev with EvPinSet _ _ _ => False | _ => True end) new
  | (Next _, w') =>
      vars w' =
        {| select0_state := false; select1_state := false;
           initialized := true |}
  end.
Proof.
  intros Hboot. unfold main_gpio_setup.
  assert (Hinit : initialized (vars w) = false) by (rewrite Hboot; reflexivity).
  pose proof (init_summary emul w) as Hsum.
  pose proof (init_from_reset emul w Hinit) as Hfresh.
  pose proof (init_makes_no_pin_set emul w) as Hlog.
  destruct (gpio_control_init emul w) as [ret w1]. cbn [snd] in Hlog.
  destruct (ret <? 0) eqn:Eret; tests_to_Z.
  - destruct Hsum as [[Hz _] | (_ & _ & Hv)]; [ lia | ].
    repeat apply conj; [ exact Eret | rewrite Hv; exact Hboot | exact Hlog ].
  - destruct Hsum as [[Hz _] | (Hneg & _)]; [ | lia ].
    specialize (Hfresh Hz).
    pose proof (set_low_keeps_all_low jtag_select0 w1 Hfresh) as H0.
    cbn [line_number] in H0.
    destruct (gpio_control_set_select emul 0 false w1) as [ret0 w2].
    cbn [snd] in H0.
    pose proof (set_low_keeps_all_low jtag_select1 w2 H0) as H1.
    cbn [line_number] in H1.
    destruct (gpio_control_set_select emul 1 false w2) as [ret1 w3].
    exact H1.
Qed.

End BootFacts.

(** X14: in the hardware build, with readback that returns the pins'
    levels, whatever levels the pins have at power-on and whatever the
    writes do: when the boot sequence of [main] goes on past
    [gpio_control_init], both pins are LOW. *)
Theorem boot_drives_pins_low (w : world sim_hw) :
  vars w = statics_at_boot ->
  Forall (eq ReadOk) (read_plan (dev w)) ->
  match main_gpio_setup false w with
  | (Return ret, _) => ret < 0
  | (Next _, w') => level0 (dev w') = false /\ level1 (dev w') = false
  end.
Proof.
  destruct w as [v [r0 r1 l0 l1 wp rp] l past].
  cbn [vars dev read_plan]. intros -> Hr.
  unfold main_gpio_setup, statics_at_boot.
  destruct l0, l1.
  all: sim_symex_reads_work; cbn; first [ split; reflexivity | lia ].
Qed.

(** ** The [jtag] shell commands *)

Section ShellFacts.

Context {H : Type} {drv : GpioDriver H}.
Variable emul : bool.
Variable atoi : string -> Z.
Variable CONFIG_BOARD : string.

(** X15: [jtag select0] and [jtag select1] given a wrong number of words,
    or a value that [atoi] does not turn into 0 or 1, return [-EINVAL],
    print one error line and leave the controller alone: no driver call and
    no change of tracked state. *)
Theorem jtag_select_rejects_bad_usage (target : gpio_dt_spec) (argc : Z)
    (argv : list string) (w : world H) (out : list shell_line) :
  argc <> 2 \/ (atoi (argv1 argv) <> 0 /\ atoi (argv1 argv) <> 1) ->
  exists msg,
    sub_jtag emul atoi CONFIG_BOARD (select_subcmd target) argc argv (w, out)
      = (- EINVAL, (w, out ++ [shell_error msg []])).
Proof.
  intros Hbad.
  destruct target; cbn [select_subcmd sub_jtag];
    unfold cmd_jtag_select0, cmd_jtag_select1.
  all: destruct (argc =? 2) eqn:Eargc; cbn [negb];
    [ | eexists; reflexivity ].
  all: tests_to_Z; destruct Hbad as [Hargc | [Hn0 Hn1]]; [ lia | ].
  all: apply Z.eqb_neq in Hn0, Hn1; rewrite Hn0, Hn1; cbn [negb andb].
  all: eexists; reflexivity.
Qed.

(** X16: [jtag select0 v] and [jtag select1 v] with [v] read as 0 or 1
    call [gpio_control_set_select] on their line with state [v == 1] and
    return what it returns.  On success they print one line naming [v], the
    line is tracked at [v] and, for [v = 1], the other line is tracked LOW;
    on failure they print one error line with the errno and the line's
    tracked state is what it was. *)
Theorem jtag_select_sets_line (target : gpio_dt_spec) (argv : list string)
    (w : world H) (out : list shell_line) :
  atoi (argv1 argv) = 0 \/ atoi (argv1 argv) = 1 ->
  let v := atoi (argv1 argv) in
  let '(ret, (w', out')) :=
    sub_jtag emul atoi CONFIG_BOARD (select_subcmd target) 2 argv (w, out) in
  (ret, w') =
    gpio_control_set_select emul (line_number target) (v =? 1) w /\
  ((ret = 0 /\
    tracked target (vars w') = (v =? 1) /\
    (v = 1 -> tracked (other_of target) (vars w') = false) /\
    exists fmt, out' = out ++ [shell_print fmt [ArgInt v; ArgInt v]]) \/
   (ret < 0 /\
    tracked target (vars w') = tracked target (vars w) /\
    exists fmt, out' = out ++ [shell_error fmt [ArgInt ret]])).
Proof.
  intros Hv v.
  assert (Hok : negb (v =? 0) && negb (v =? 1) = false).
  { subst v. destruct Hv as [-> | ->]; reflexivity. }
  pose proof (set_select_summary emul target (v =? 1) w) as Hout.
  destruct target; cbn [select_subcmd sub_jtag line_number] in *;
    unfold cmd_jtag_select0, cmd_jtag_select1.
  all: cbn [Z.eqb Pos.eqb negb]; fold v; rewrite Hok.
  all: match goal with
       | |- context [gpio_control_set_select ?e ?n ?s ?x] =>
           destruct (gpio_control_set_select e n s x) as [ret w']
       end.
  all: destruct Hout as [_ [(Hz & _ & Ht & Ho) | (Hneg & Ht & _)]].
  all: destruct (ret <? 0) eqn:Eret; tests_to_Z; try lia.
  all: split; [ first [ reflexivity | subst ret; reflexivity ] | ].
  all: first
    [ left; repeat apply conj;
      [ reflexivity | exact Ht
      | intros H1; rewrite Ho; apply Z.eqb_eq in H1; rewrite H1; reflexivity
      | eexists; reflexivity ]
    | right; repeat apply conj;
      [ lia | exact Ht | eexists; reflexivity ] ].
Qed.

(** X17: [jtag toggle0] and [jtag toggle1] return 0 or a negative errno.
    When they return 0 the line's tracked state is the opposite of what it
    was and the one line printed reports that new state; when they fail the
    line's tracked state is what it was and the one line printed is the
    toggle's error with its errno.  The read-back of the state after a
    successful toggle never fails. *)
Theorem jtag_toggle_reports_new_state (target : gpio_dt_spec) (argc : Z)
    (argv : list string) (w : world H) (out : list shell_line) :
  let old := tracked target (vars w) in
  let '(ret, (w', out')) :=
    sub_jtag emul atoi CONFIG_BOARD (toggle_subcmd target) argc argv (w, out) in
  (ret = 0 /\
   tracked target (vars w') = negb old /\
   out' =
     out ++
     [shell_print
        match target with
        | jtag_select0 => "select0 toggled to %d (connector %d)"
        | jtag_select1 => "select1 toggled to %d (connector %d)"
        end
        [ArgInt (bool_to_int (negb old)); ArgInt (bool_to_int (negb old))]])
  \/
  (ret < 0 /\
   tracked target (vars w') = old /\
   out' =
     out ++
     [shell_error
        match target with
        | jtag_select0 => "Failed to toggle select0: %d"
        | jtag_select1 => "Failed to toggle select1: %d"
        end
        [ArgInt ret]]).
Proof.
  intros old.
  pose proof (toggle_select_summary emul target w) as Hout.
  destruct target; cbn [toggle_subcmd sub_jtag line_number] in *;
    unfold cmd_jtag_toggle0, cmd_jtag_toggle1.
  all: match goal with
       | |- context [gpio_control_toggle_select ?e ?n ?x] =>
           destruct (gpio_control_toggle_select e n x) as [ret w1]
       end.
  all: destruct Hout as [Hi [(Hz & Hinit & Ht) | (Hneg & Ht)]].
  all: destruct (ret <? 0) eqn:Eret; tests_to_Z; try lia.
  all: try (right; repeat apply conj; [ lia | exact Ht | reflexivity ]).
  - pose proof (get_select_reads_tracked jtag_select0 false w1) as Hget.
    cbn [line_number] in Hget. rewrite Hget by (rewrite Hi; exact Hinit).
    cbn [Z.ltb Z.compare tracked] in *. rewrite Ht.
    left. repeat apply conj; reflexivity.
  - pose proof (get_select_reads_tracked jtag_select1 false w1) as Hget.
    cbn [line_number] in Hget. rewrite Hget by (rewrite Hi; exact Hinit).
    cbn [Z.ltb Z.compare tracked] in *. rewrite Ht.
    left. repeat apply conj; reflexivity.
Qed.

(** [jtag status] never changes the controller and makes no driver
    call.  On an uninitialised controller it returns [-EINVAL] after one
    error line; on an initialised one it returns 0 after five lines, the
    second and third giving the tracked state of line 0 and line 1. *)
Lemma jtag_status_reads_only (argc : Z) (argv : list string)
    (w : world H) (out : list shell_line) :
  cmd_jtag_status CONFIG_BOARD argc argv (w, out) =
    if initialized (vars w) then
      (0,
       (w,
        out ++
        [shell_print "JTAG Switch Status:" [];
         shell_print "  select0: %d (connector %d)"
           [ArgInt (bool_to_int (select0_state (vars w)));
            ArgInt (bool_to_int (select0_state (vars w)))];
         shell_print "  select1: %d (connector %d)"
           [ArgInt (bool_to_int (select1_state (vars w)));
            ArgInt (bool_to_int (select1_state (vars w)))];
         shell_print EmptyString [];
         shell_print "Board: %s" [ArgStr CONFIG_BOARD]]))
    else
      (- EINVAL,
       (w, out ++ [shell_error "Failed to get select0 state: %d"
                     [ArgInt (- EINVAL)]])).
Proof.
  unfold cmd_jtag_status, gpio_control_get_select.
  destruct (initialized (vars w)) eqn:Einit; cbn; rewrite ?Einit; reflexivity.
Qed.

Lemma sub_jtag_keeps_exclusion (c : jtag_subcmd) (argc : Z)
    (argv : list string) (st : shell_state) :
  tracked_exclusive (fst st) ->
  tracked_exclusive
    (fst (snd (sub_jtag emul atoi CONFIG_BOARD c argc argv st))).
Proof.
  destruct st as [w out]; cbn [fst]. intros Hw.
  assert (Hset : forall n s,
             tracked_exclusive (snd (gpio_control_set_select emul n s w)))
    by (intros; apply set_select_keeps_exclusion, Hw).
  assert (Htog : forall n,
             tracked_exclusive (snd (gpio_control_toggle_select emul n w)))
    by (intros; apply toggle_select_keeps_exclusion, Hw).
  destruct c; cbn [sub_jtag];
    unfold cmd_jtag_select0, cmd_jtag_select1, cmd_jtag_toggle0,
      cmd_jtag_toggle1, cmd_jtag_status.
  - destruct (negb (argc =? 2)); [ exact Hw | ].
    destruct (negb _ && negb _); [ exact Hw | ].
    specialize (Hset 0 (atoi (argv1 argv) =? 1)).
    destruct (gpio_control_set_select emul 0 _ w) as [ret w'].
    destruct (ret <? 0); exact Hset.
  - destruct (negb (argc =? 2)); [ exact Hw | ].
    destruct (negb _ && negb _); [ exact Hw | ].
    specialize (Hset 1 (atoi (argv1 argv) =? 1)).
    destruct (gpio_control_set_select emul 1 _ w) as [ret w'].
    destruct (ret <? 0); exact Hset.
  - specialize (Htog 0).
    destruct (gpio_control_toggle_select emul 0 w) as [ret w1].
    cbn [snd] in Htog.
    destruct (ret <? 0); [ exact Htog | ].
    pose proof (get_select_same_world 0 (Some false) w1) as Hsame.
    destruct (gpio_control_get_select 0 (Some false) w1) as [[r c] w2].
    cbn [snd] in Hsame. subst w2.
    destruct (r <? 0); exact Htog.
  - specialize (Htog 1).
    destruct (gpio_control_toggle_select emul 1 w) as [ret w1].
    cbn [snd] in Htog.
    destruct (ret <? 0); [ exact Htog | ].
    pose proof (get_select_same_world 1 (Some false) w1) as Hsame.
    destruct (gpio_control_get_select 1 (Some false) w1) as [[r c] w2].
    cbn [snd] in Hsame. subst w2.
    destruct (r <? 0); exact Htog.
  - pose proof (get_select_same_world 0 (Some false) w) as Hsame.
    destruct (gpio_control_get_select 0 (Some false) w) as [[r c] w1].
    cbn [snd] in Hsame. subst w1.
    destruct (r <? 0); [ exact Hw | ].
    pose proof (get_select_same_world 1 (Some false) w) as Hsame.
    destruct (gpio_control_get_select 1 (Some false) w) as [[r' c'] w2].
    cbn [snd] in Hsame. subst w2.
    destruct (r' <? 0); exact Hw.
Qed.

(** X18: no sequence of [jtag] command lines, with any words and any
    hardware behaviour, brings the two tracked lines HIGH together: started
    where they are not both HIGH, they are not both HIGH after the last
    command nor at any point passed through on the way. *)
Theorem jtag_commands_keep_exclusion
    (lines : list (jtag_subcmd * list string)) (st : shell_state) :
  tracked_exclusive (fst st) ->
  tracked_exclusive
    (fst (snd (run_jtag emul atoi CONFIG_BOARD lines st))).
Proof.
  revert st. induction lines as [ | [c argv] rest IH ]; intros st Hst;
    cbn [run_jtag].
  - exact Hst.
  - pose proof (sub_jtag_keeps_exclusion c (Z.of_nat (length argv)) argv st
                  Hst) as Hstep.
    destruct (sub_jtag emul atoi CONFIG_BOARD c (Z.of_nat (length argv))
                argv st) as [ret st1].
    cbn [snd] in Hstep. specialize (IH st1 Hstep).
    destruct (run_jtag emul atoi CONFIG_BOARD rest st1) as [rets st2].
    exact IH.
Qed.

End ShellFacts.

(** ** The HTTP select and toggle endpoints *)

Section HttpFacts.

Context {H : Type} {drv : GpioDriver H}.
Variable emul : bool.
Variable SIZE_BITS : Z.
Variable json_obj_parse_select :
  list Byte.byte -> select_request -> Z * select_request * list Byte.byte.
Variable json_obj_parse_toggle :
  list Byte.byte -> toggle_request -> Z * toggle_request * list Byte.byte.
Variable json_obj_encode_buf : json_struct -> string -> Z * string.

(** [size_t] holds the buffer size. *)
Hypothesis size_bits_ok : 8 <= SIZE_BITS.

Lemma size_sub_exact (off : Z) :
  0 <= off <= REQUEST_BUFFER_SIZE ->
  size_sub SIZE_BITS REQUEST_BUFFER_SIZE off = REQUEST_BUFFER_SIZE - off.
Proof.
  intros Hoff. unfold size_sub, REQUEST_BUFFER_SIZE in *.
  apply Z.mod_small.
  assert (2 ^ 8 <= 2 ^ SIZE_BITS) by (apply Z.pow_le_mono_r; lia).
  change (2 ^ 8) with 256 in *. lia.
Qed.

Lemma size_add_exact (off n : Z) :
  0 <= off -> 0 <= n -> off + n <= REQUEST_BUFFER_SIZE ->
  size_add SIZE_BITS off n = off + n.
Proof.
  intros Hoff Hn Hsum. unfold size_add, REQUEST_BUFFER_SIZE in *.
  apply Z.mod_small.
  assert (2 ^ 8 <= 2 ^ SIZE_BITS) by (apply Z.pow_le_mono_r; lia).
  change (2 ^ 8) with 256 in *. lia.
Qed.

(** What the first block does to statics that are in bounds, for a status
    other than [HTTP_SERVER_DATA_ABORTED]: the offset advances by the
    chunk's length, capped at the buffer size, the buffer keeps its size,
    and the received bytes are the old ones followed by the chunk, capped
    too. *)
Lemma accumulate_appends (st : http_data_status) (data : list Byte.byte)
    (rs : request_statics) :
  st <> HTTP_SERVER_DATA_ABORTED ->
  request_statics_ok rs ->
  let rs' := accumulate SIZE_BITS st data rs in
  request_statics_ok rs' /\
  request_offset rs' =
    Z.min REQUEST_BUFFER_SIZE (request_offset rs + Z.of_nat (length data)) /\
  received rs' =
    firstn (Z.to_nat REQUEST_BUFFER_SIZE) (received rs ++ data).
Proof.
  intros Hst [Hoff Hlen] rs'.
  assert (Hacc : rs' =
    if 0 <? Z.of_nat (length data) then
      {| request_buffer :=
           memcpy_at (request_buffer rs) (request_offset rs) data
             (Z.min (Z.of_nat (length data))
                (REQUEST_BUFFER_SIZE - request_offset rs));
         request_offset :=
           request_offset rs +
           Z.min (Z.of_nat (length data))
             (REQUEST_BUFFER_SIZE - request_offset rs) |}
    else rs).
  { subst rs'. unfold accumulate.
    destruct st; try congruence;
      destruct (0 <? Z.of_nat (length data)); try reflexivity;
      rewrite size_sub_exact by exact Hoff;
      rewrite size_add_exact by lia; reflexivity. }
  rewrite Hacc. clear Hacc rs'.
  destruct rs as [buf off]; cbn [request_buffer request_offset] in *.
  unfold received, request_statics_ok, REQUEST_BUFFER_SIZE in *;
    cbn [request_buffer request_offset].
  destruct (0 <? Z.of_nat (length data)) eqn:Elen; tests_to_Z;
    cbn [request_buffer request_offset].
  - set (n := Z.min (Z.of_nat (length data)) (128 - off)).
    assert (Hn : 0 <= n <= 128 - off) by (subst n; lia).
    assert (Hnd : n <= Z.of_nat (length data)) by (subst n; lia).
    unfold memcpy_at.
    assert (Hl1 : length (firstn (Z.to_nat off) buf) = Z.to_nat off)
      by (rewrite length_firstn; lia).
    assert (Hl2 : length (firstn (Z.to_nat n) data) = Z.to_nat n)
      by (rewrite length_firstn; lia).
    repeat apply conj.
    + lia.
    + lia.
    + rewrite !length_app, Hl1, Hl2, length_skipn. lia.
    + subst n. lia.
    + replace (Z.to_nat (off + n)) with (Z.to_nat off + Z.to_nat n)%nat
        by lia.
      rewrite app_assoc.
      rewrite firstn_app.
      rewrite length_app, Hl1, Hl2.
      replace (Z.to_nat off + Z.to_nat n - (Z.to_nat off + Z.to_nat n))%nat
        with 0%nat by lia.
      cbn [firstn]. rewrite app_nil_r.
      rewrite firstn_all2 by (rewrite length_app, Hl1, Hl2; lia).
      rewrite (firstn_app (Z.to_nat 128)).
      rewrite Hl1.
      rewrite (firstn_all2 (n := Z.to_nat 128) (firstn (Z.to_nat off) buf))
        by lia.
      f_equal.
      destruct (Z.le_ge_cases (Z.of_nat (length data)) (128 - off)).
      * replace n with (Z.of_nat (length data)) by (subst n; lia).
        rewrite !firstn_all2 by lia. reflexivity.
      * replace n with (128 - off) by (subst n; lia).
        f_equal. lia.
  - assert (Hd : data = []) by (destruct data; [ reflexivity | cbn in Elen; lia ]).
    subst data. cbn [length]. rewrite app_nil_r.
    repeat apply conj; try lia.
    rewrite (firstn_all2 (n := Z.to_nat 128)); [ reflexivity | ].
    rewrite length_firstn. lia.
Qed.

Lemma accumulate_keeps_ok (st : http_data_status) (data : list Byte.byte)
    (rs : request_statics) :
  request_statics_ok rs ->
  request_statics_ok (accumulate SIZE_BITS st data rs).
Proof.
  intros Hok.
  destruct (match st with HTTP_SERVER_DATA_ABORTED => true | _ => false end)
    eqn:Est.
  - destruct st; try discriminate Est. destruct Hok as [Hoff Hlen].
    split; cbn; [ unfold REQUEST_BUFFER_SIZE; lia | exact Hlen ].
  - apply accumulate_appends; [ | exact Hok ].
    intros ->. discriminate Est.
Qed.

Lemma firstn_firstn_app {A : Type} (n : nat) (l m : list A) :
  firstn n (firstn n l ++ m) = firstn n (l ++ m).
Proof.
  destruct (Nat.le_gt_cases (length l) n) as [Hle | Hgt].
  - rewrite (firstn_all2 (n := n) l) by exact Hle. reflexivity.
  - rewrite !firstn_app.
    rewrite length_firstn.
    replace (n - Nat.min n (length l))%nat with 0%nat by lia.
    replace (n - length l)%nat with 0%nat by lia.
    cbn [firstn]. rewrite !app_nil_r, firstn_firstn, Nat.min_id. reflexivity.
Qed.

Lemma accumulate_all_received
    (chunks : list (http_data_status * list Byte.byte))
    (rs : request_statics) :
  Forall (fun c => fst c <> HTTP_SERVER_DATA_ABORTED) chunks ->
  request_statics_ok rs ->
  received (accumulate_all SIZE_BITS chunks rs) =
    firstn (Z.to_nat REQUEST_BUFFER_SIZE)
      (received rs ++ concat (map snd chunks)).
Proof.
  intros Hst. revert rs.
  induction Hst as [ | [st data] chunks Hc Hrest IH ]; intros rs Hok.
  - cbn [accumulate_all fold_left map concat]. rewrite app_nil_r.
    symmetry. apply firstn_all2.
    destruct Hok as [Hoff Hlen]. unfold received.
    rewrite length_firstn. unfold REQUEST_BUFFER_SIZE in *. lia.
  - cbn [accumulate_all fold_left map concat fst snd] in *.
    destruct (accumulate_appends st data rs Hc Hok) as (Hok' & _ & Hrecv).
    fold (accumulate_all SIZE_BITS chunks (accumulate SIZE_BITS st data rs)).
    rewrite IH by exact Hok'.
    rewrite Hrecv, firstn_firstn_app, app_assoc. reflexivity.
Qed.

(** X19: bytes handed to a handler in chunks, none aborted, starting from
    an empty buffer: what [json_obj_parse] will be given is the first 128
    bytes of the chunks put end to end.  Bytes beyond the buffer's size are
    dropped, and nothing of an earlier request is read. *)
Theorem received_is_request_prefix
    (chunks : list (http_data_status * list Byte.byte))
    (rs : request_statics) :
  Forall (fun c => fst c <> HTTP_SERVER_DATA_ABORTED) chunks ->
  request_statics_ok rs ->
  request_offset rs = 0 ->
  received (accumulate_all SIZE_BITS chunks rs) =
    firstn (Z.to_nat REQUEST_BUFFER_SIZE) (concat (map snd chunks)).
Proof.
  intros Hst Hok Hzero.
  rewrite accumulate_all_received by assumption.
  unfold received. rewrite Hzero. reflexivity.
Qed.

(** [json_obj_parse] leaves as many bytes as it was given. *)
Hypothesis parse_select_keeps_length :
  forall bytes req,
    length (snd (json_obj_parse_select bytes req)) = length bytes.
Hypothesis parse_toggle_keeps_length :
  forall bytes req,
    length (snd (json_obj_parse_toggle bytes req)) = length bytes.

Lemma after_parse_ok (rs : request_statics) (parsed : list Byte.byte) :
  request_statics_ok rs ->
  length parsed = length (received rs) ->
  request_statics_ok (after_parse rs parsed).
Proof.
  intros [Hoff Hlen] Hparsed. unfold after_parse, request_statics_ok.
  cbn [request_offset request_buffer]. split.
  - unfold REQUEST_BUFFER_SIZE; lia.
  - rewrite length_app, length_skipn, Hparsed. unfold received.
    rewrite length_firstn. unfold REQUEST_BUFFER_SIZE in *. lia.
Qed.


Lemma http_step_keeps_ok (c : http_call) (response_ctx : http_response_ctx)
    (s : http_state) :
  request_statics_ok (select_statics s) ->
  request_statics_ok (toggle_statics s) ->
  let s' := snd ((http_step emul SIZE_BITS json_obj_parse_select json_obj_parse_toggle
     json_obj_encode_buf) c response_ctx s) in
  request_statics_ok (select_statics s') /\
  request_statics_ok (toggle_statics s').
Proof.
  intros Hsel Htog.
  destruct c as [st data | st data]; cbn [http_step];
    unfold select_handler, toggle_handler.
  - pose proof (accumulate_keeps_ok st data _ Hsel) as Hacc.
    destruct st; cbn [snd select_statics toggle_statics]; auto.
    pose proof (parse_select_keeps_length
                  (received (accumulate SIZE_BITS HTTP_SERVER_DATA_FINAL data
                               (select_statics s)))
                  {| sel_line := -1; sel_connector := -1 |}) as Hlen.
    destruct (json_obj_parse_select _ _) as [[parse_ret req] parsed].
    cbn [snd] in Hlen.
    match goal with
    | |- context [match ?e with pair _ _ => _ end] =>
        destruct e as [[w buffer] code]
    end.
    cbn [snd select_statics toggle_statics].
    split; [ apply after_parse_ok; assumption | exact Htog ].
  - pose proof (accumulate_keeps_ok st data _ Htog) as Hacc.
    destruct st; cbn [snd select_statics toggle_statics]; auto.
    pose proof (parse_toggle_keeps_length
                  (received (accumulate SIZE_BITS HTTP_SERVER_DATA_FINAL data
                               (toggle_statics s)))
                  {| tog_line := -1 |}) as Hlen.
    destruct (json_obj_parse_toggle _ _) as [[parse_ret req] parsed].
    cbn [snd] in Hlen.
    match goal with
    | |- context [match ?e with pair _ _ => _ end] =>
        destruct e as [[w buffer] code]
    end.
    cbn [snd select_statics toggle_statics].
    split; [ exact Hsel | apply after_parse_ok; assumption ].
Qed.

(** X20: whatever the HTTP server hands to the two handlers, in whatever
    order and with chunks of any size: each handler's [request_offset] stays
    between 0 and the 128 bytes of its [request_buffer], and the buffer
    keeps its size.  The [memcpy] never writes past the buffer. *)
Theorem request_buffers_stay_in_bounds
    (cs : list (http_call * http_response_ctx)) (s : http_state) :
  request_statics_ok (select_statics s) ->
  request_statics_ok (toggle_statics s) ->
  request_statics_ok (select_statics ((run_http emul SIZE_BITS json_obj_parse_select json_obj_parse_toggle
     json_obj_encode_buf) cs s)) /\
  request_statics_ok (toggle_statics ((run_http emul SIZE_BITS json_obj_parse_select json_obj_parse_toggle
     json_obj_encode_buf) cs s)).
Proof.
  revert s. induction cs as [ | [c response_ctx] cs IH ]; intros s Hsel Htog;
    cbn [run_http].
  - split; assumption.
  - pose proof (http_step_keeps_ok c response_ctx s Hsel Htog) as Hstep.
    destruct ((http_step emul SIZE_BITS json_obj_parse_select json_obj_parse_toggle
     json_obj_encode_buf) c response_ctx s) as [[ret resp] s1].
    cbn [snd] in Hstep. destruct Hstep as [Hsel1 Htog1].
    apply IH; assumption.
Qed.

Lemma to_uint8_line (target : gpio_dt_spec) :
  to_uint8 (line_number target) = line_number target.
Proof. destruct target; reflexivity. Qed.

(** X21: a final chunk whose parse fails, or yields a line outside 0..1 or
    a connector outside 0..3, makes [select_handler] answer 400 Bad Request
    without calling the controller: its world is the one before.  The
    handler returns 0, publishes [json_response_buffer] as the final chunk
    with its string length, and resets [request_offset]. *)
Theorem select_rejects_invalid_request (data : list Byte.byte)
    (response_ctx : http_response_ctx) (s : http_state)
    (parse_ret : Z) (req : select_request) (parsed : list Byte.byte) :
  json_obj_parse_select
    (received (accumulate SIZE_BITS HTTP_SERVER_DATA_FINAL data
                 (select_statics s)))
    {| sel_line := -1; sel_connector := -1 |} = (parse_ret, req, parsed) ->
  parse_ret < 0 \/ sel_line req < 0 \/ 1 < sel_line req \/
  sel_connector req < 0 \/ 3 < sel_connector req ->
  let '(ret, resp, s') :=
    (select_handler emul SIZE_BITS json_obj_parse_select
     json_obj_encode_buf) HTTP_SERVER_DATA_FINAL data response_ctx s in
  ret = 0 /\ gpio s' = gpio s /\
  status resp = Some HTTP_400_BAD_REQUEST /\
  final_chunk resp = true /\
  body resp = body_json_response_buffer /\
  body_len resp = Z.of_nat (String.length (json_response_buffer s')) /\
  request_offset (select_statics s') = 0.
Proof.
  intros Hparse Hbad. unfold select_handler. rewrite Hparse.
  assert (Htest : (parse_ret <? 0) || (sel_line req <? 0)
                  || (sel_line req >? 1) || (sel_connector req <? 0)
                  || (sel_connector req >? 3) = true).
  { rewrite !orb_true_iff, !Z.ltb_lt, !Z.gtb_ltb, !Z.ltb_lt. tauto. }
  rewrite Htest. cbn. repeat apply conj; reflexivity.
Qed.

(** X22: a final chunk that parses to line 0 or 1 and a connector in 0..3
    makes [select_handler] call [gpio_control_set_select] on that line with
    state HIGH for connectors 1 and 3 and LOW for connectors 0 and 2, and
    keep the world it leaves.  The answer is 500 when the set fails, and
    otherwise 200 when the response encodes and 500 when it does not.  A 200
    answer means the line is tracked at the requested state, and its body
    is the encoding of the two tracked states after the set. *)
Theorem select_valid_request (target : gpio_dt_spec) (data : list Byte.byte)
    (response_ctx : http_response_ctx) (s : http_state)
    (parse_ret : Z) (req : select_request) (parsed : list Byte.byte) :
  json_obj_parse_select
    (received (accumulate SIZE_BITS HTTP_SERVER_DATA_FINAL data
                 (select_statics s)))
    {| sel_line := -1; sel_connector := -1 |} = (parse_ret, req, parsed) ->
  0 <= parse_ret ->
  sel_line req = line_number target ->
  0 <= sel_connector req <= 3 ->
  let value := Z.odd (sel_connector req) in
  let sret :=
    fst (gpio_control_set_select emul (line_number target) value (gpio s)) in
  let w1 :=
    snd (gpio_control_set_select emul (line_number target) value (gpio s)) in
  let enc :=
    json_obj_encode_buf
      (select_response true (select0_state (vars w1))
         (select1_state (vars w1)))
      (json_response_buffer s) in
  let '(ret, resp, s') :=
    (select_handler emul SIZE_BITS json_obj_parse_select
     json_obj_encode_buf) HTTP_SERVER_DATA_FINAL data response_ctx s in
  ret = 0 /\ gpio s' = w1 /\
  status resp =
    Some (if sret <? 0 then HTTP_500_INTERNAL_SERVER_ERROR
          else if fst enc =? 0 then HTTP_200_OK
               else HTTP_500_INTERNAL_SERVER_ERROR) /\
  (status resp = Some HTTP_200_OK ->
   tracked target (vars (gpio s')) = value /\
   json_response_buffer s' = snd enc).
Proof.
  intros Hparse Hret Hline Hconn value sret w1 enc.
  unfold select_handler. rewrite Hparse.
  assert (Htest : (parse_ret <? 0) || (sel_line req <? 0)
                  || (sel_line req >? 1) || (sel_connector req <? 0)
                  || (sel_connector req >? 3) = false).
  { rewrite !orb_false_iff, !Z.gtb_ltb, !Z.ltb_ge.
    rewrite Hline. destruct target; cbn [line_number]; lia. }
  rewrite Htest.
  assert (Hvalue : (sel_connector req =? 1) || (sel_connector req =? 3)
                   = value).
  { subst value.
    assert (Hc : sel_connector req = 0 \/ sel_connector req = 1 \/
                 sel_connector req = 2 \/ sel_connector req = 3) by lia.
    destruct Hc as [-> | [-> | [-> | ->]]]; reflexivity. }
  rewrite Hvalue, Hline, to_uint8_line.
  pose proof (set_select_summary emul target value (gpio s)) as Hout.
  subst sret w1 enc.
  destruct (gpio_control_set_select emul (line_number target) value (gpio s))
    as [sret w1]. cbn [fst snd].
  destruct Hout as [Hi [(Hz & Hinit & Ht & _) | (Hneg & _)]].
  - subst sret. cbn [Z.ltb Z.compare].
    assert (Hw1 : initialized (vars w1) = true) by (rewrite Hi; exact Hinit).
    pose proof (get_select_reads_tracked jtag_select0 false w1 Hw1) as G0.
    pose proof (get_select_reads_tracked jtag_select1 false w1 Hw1) as G1.
    cbn [line_number tracked] in G0, G1. rewrite G0, G1.
    destruct (json_obj_encode_buf _ _) as [eret buffer']. cbn [fst snd].
    destruct (eret =? 0); cbn [gpio status json_response_buffer publish];
      repeat apply conj; try reflexivity.
    + intros _. split; [ exact Ht | reflexivity ].
    + intros Hs. discriminate Hs.
  - assert (Hlt : (sret <? 0) = true) by (apply Z.ltb_lt; exact Hneg).
    rewrite Hlt. cbn [gpio status json_response_buffer publish].
    repeat apply conj; try reflexivity.
    intros Hs. discriminate Hs.
Qed.

(** X23: a final chunk that parses to line 0 or 1 makes [toggle_handler]
    call [gpio_control_toggle_select] on that line and keep the world it
    leaves.  When the toggle fails the answer is 500 and the line's tracked
    state is what it was.  When it succeeds the line's tracked state is
    inverted, the structure encoded reports that new state, and the answer
    is 200 if it encodes and 500 if it does not: a 500 can follow a toggle
    that took effect. *)
Theorem toggle_valid_request (target : gpio_dt_spec) (data : list Byte.byte)
    (response_ctx : http_response_ctx) (s : http_state)
    (parse_ret : Z) (req : toggle_request) (parsed : list Byte.byte) :
  json_obj_parse_toggle
    (received (accumulate SIZE_BITS HTTP_SERVER_DATA_FINAL data
                 (toggle_statics s)))
    {| tog_line := -1 |} = (parse_ret, req, parsed) ->
  0 <= parse_ret ->
  tog_line req = line_number target ->
  let old := tracked target (vars (gpio s)) in
  let tret :=
    fst (gpio_control_toggle_select emul (line_number target) (gpio s)) in
  let w1 :=
    snd (gpio_control_toggle_select emul (line_number target) (gpio s)) in
  let enc :=
    json_obj_encode_buf
      (toggle_response true (line_number target) (negb old))
      (json_response_buffer s) in
  let '(ret, resp, s') :=
    (toggle_handler emul SIZE_BITS json_obj_parse_toggle
     json_obj_encode_buf) HTTP_SERVER_DATA_FINAL data response_ctx s in
  ret = 0 /\ gpio s' = w1 /\
  ((tret < 0 /\
    status resp = Some HTTP_500_INTERNAL_SERVER_ERROR /\
    tracked target (vars (gpio s')) = old) \/
   (tret = 0 /\
    tracked target (vars (gpio s')) = negb old /\
    status resp =
      Some (if fst enc =? 0 then HTTP_200_OK
            else HTTP_500_INTERNAL_SERVER_ERROR) /\
    (fst enc = 0 -> json_response_buffer s' = snd enc))).
Proof.
  intros Hparse Hret Hline old tret w1 enc.
  unfold toggle_handler. rewrite Hparse.
  assert (Htest : (parse_ret <? 0) || (tog_line req <? 0)
                  || (tog_line req >? 1) = false).
  { rewrite !orb_false_iff, !Z.gtb_ltb, !Z.ltb_ge.
    rewrite Hline. destruct target; cbn [line_number]; lia. }
  rewrite Htest, Hline, to_uint8_line.
  pose proof (toggle_select_summary emul target (gpio s)) as Hout.
  subst tret w1 enc.
  destruct (gpio_control_toggle_select emul (line_number target) (gpio s))
    as [tret w1]. cbn [fst snd].
  destruct Hout as [Hi [(Hz & Hinit & Ht) | (Hneg & Ht)]].
  - subst tret. cbn [Z.ltb Z.compare].
    assert (Hw1 : initialized (vars w1) = true) by (rewrite Hi; exact Hinit).
    rewrite (get_select_reads_tracked target false w1 Hw1).
    fold old in Ht. rewrite Ht.
    destruct (json_obj_encode_buf _ _) as [eret buffer'] eqn:Eenc.
    cbn [fst snd].
    destruct (eret =? 0) eqn:Ee;
      cbn [gpio status json_response_buffer publish];
      (split; [ reflexivity | split; [ reflexivity | right ] ]);
      repeat apply conj; try reflexivity; try exact Ht.
    + intros He. apply Z.eqb_neq in Ee. contradiction.
  - assert (Hlt : (tret <? 0) = true) by (apply Z.ltb_lt; exact Hneg).
    rewrite Hlt. cbn [gpio status json_response_buffer publish].
    split; [ reflexivity | split; [ reflexivity | left ] ].
    repeat apply conj; [ exact Hneg | reflexivity | exact Ht ].
Qed.

Lemma http_step_keeps_exclusion (c : http_call)
    (response_ctx : http_response_ctx) (s : http_state) :
  tracked_exclusive (gpio s) ->
  tracked_exclusive (gpio (snd ((http_step emul SIZE_BITS json_obj_parse_select json_obj_parse_toggle
     json_obj_encode_buf) c response_ctx s))).
Proof.
  intros Hw.
  destruct c as [st data | st data]; cbn [http_step];
    unfold select_handler, toggle_handler.
  - destruct st; cbn [snd gpio]; try exact Hw.
    destruct (json_obj_parse_select _ _) as [[parse_ret req] parsed].
    destruct (_ || _); cbn [snd gpio]; [ exact Hw | ].
    pose proof (set_select_keeps_exclusion emul (to_uint8 (sel_line req))
                  ((sel_connector req =? 1) || (sel_connector req =? 3))
                  (gpio s) Hw) as Hset.
    destruct (gpio_control_set_select emul _ _ (gpio s)) as [ret w1].
    cbn [snd] in Hset.
    destruct (ret <? 0); cbn [snd gpio]; [ exact Hset | ].
    pose proof (get_select_same_world 0 (Some false) w1) as S0.
    destruct (gpio_control_get_select 0 (Some false) w1) as [[r0 c0] w2].
    cbn [snd] in S0. subst w2.
    pose proof (get_select_same_world 1 (Some false) w1) as S1.
    destruct (gpio_control_get_select 1 (Some false) w1) as [[r1 c1] w3].
    cbn [snd] in S1. subst w3.
    destruct (json_obj_encode_buf _ _) as [eret buffer'].
    destruct (eret =? 0); exact Hset.
  - destruct st; cbn [snd gpio]; try exact Hw.
    destruct (json_obj_parse_toggle _ _) as [[parse_ret req] parsed].
    destruct (_ || _); cbn [snd gpio]; [ exact Hw | ].
    pose proof (toggle_select_keeps_exclusion emul (to_uint8 (tog_line req))
                  (gpio s) Hw) as Htog.
    destruct (gpio_control_toggle_select emul _ (gpio s)) as [ret w1].
    cbn [snd] in Htog.
    destruct (ret <? 0); cbn [snd gpio]; [ exact Htog | ].
    pose proof (get_select_same_world (to_uint8 (tog_line req)) (Some false)
                  w1) as S0.
    destruct (gpio_control_get_select _ (Some false) w1) as [[r0 c0] w2].
    cbn [snd] in S0. subst w2.
    destruct (json_obj_encode_buf _ _) as [eret buffer'].
    destruct (eret =? 0); exact Htog.
Qed.

(** X24: no sequence of invocations of the two HTTP handlers, with any
    request bodies, any parser and encoder results and any hardware
    behaviour, brings the two tracked lines HIGH together: started where
    they are not both HIGH, they are not both HIGH after the last invocation
    nor at any point passed through on the way. *)
Theorem http_requests_keep_exclusion
    (cs : list (http_call * http_response_ctx)) (s : http_state) :
  tracked_exclusive (gpio s) ->
  tracked_exclusive (gpio ((run_http emul SIZE_BITS json_obj_parse_select json_obj_parse_toggle
     json_obj_encode_buf) cs s)).
Proof.
  revert s. induction cs as [ | [c response_ctx] cs IH ]; intros s Hw;
    cbn [run_http].
  - exact Hw.
  - pose proof (http_step_keeps_exclusion c response_ctx s Hw) as Hstep.
    destruct ((http_step emul SIZE_BITS json_obj_parse_select json_obj_parse_toggle
     json_obj_encode_buf) c response_ctx s) as [[ret resp] s1].
    cbn [snd] in Hstep. apply IH. exact Hstep.
Qed.

End HttpFacts.

(** * Instances of the further facts on concrete runs *)

Lemma uninitialized_rejects_all_witness :
  gpio_control_set_select false 0 true (boot_world [] [])
    = (- EINVAL, boot_world [] []) /\
  gpio_control_get_select 0 (Some false) (boot_world [] [])
    = (- EINVAL, Some false, boot_world [] []) /\
  gpio_control_toggle_select false 0 (boot_world [] [])
    = (- EINVAL, boot_world [] []).
Proof.
  apply (uninitialized_rejects_all false 0 true (Some false)
           (boot_world [] [])).
  reflexivity.
Defined.

Lemma init_device_not_ready_witness :
  let (ret, w') := gpio_control_init false unready_world in
  ret = - ENODEV /\
  vars w' = vars unready_world /\
  dev w' = dev unready_world /\
  exists new, log w' = log unready_world ++ new /\
    Forall (fun ev => match ev with EvIsReady _ _ => True | _ => False end)
      new.
Proof.
  apply (init_device_not_ready false unready_world).
  - reflexivity.
  - left. reflexivity.
Defined.

Lemma set_then_get_witness :
  gpio_control_get_select (line_number jtag_select0) (Some false)
    (snd (gpio_control_set_select false (line_number jtag_select0) true
            (ready_world false [] [])))
  = (0, Some true,
     snd (gpio_control_set_select false (line_number jtag_select0) true
            (ready_world false [] []))).
Proof.
  apply (set_then_get false jtag_select0 true false (ready_world false [] [])).
  reflexivity.
Defined.

Lemma initialized_is_permanent_witness :
  initialized
    (vars (snd (run_calls false
                  [CallSetSelect 0 true; CallInit; CallToggleSelect 7;
                   CallSetSelect 1 true]
                  (ready_world false [WriteOk; WriteOk; WriteErr 5]
                     [ReadOk; ReadOk; ReadErr 5])))) = true.
Proof.
  apply (initialized_is_permanent false
           [CallSetSelect 0 true; CallInit; CallToggleSelect 7;
            CallSetSelect 1 true]
           (ready_world false [WriteOk; WriteOk; WriteErr 5]
              [ReadOk; ReadOk; ReadErr 5])).
  reflexivity.
Defined.

Lemma init_success_pins_low_witness :
  level0 (dev (snd (gpio_control_init false pins_high_at_boot))) = false /\
  level1 (dev (snd (gpio_control_init false pins_high_at_boot))) = false.
Proof.
  apply (init_success_pins_low pins_high_at_boot).
  - reflexivity.
  - constructor.
  - reflexivity.
Defined.

Lemma tracked_state_mirrors_pins_witness :
  level0
    (dev (snd (run_calls false
                 [CallInit; CallSetSelect 0 true; CallSetSelect 1 true]
                 (boot_world [WriteOk; WriteOk; WriteOk; WriteOk; WriteErr 5]
                    []))))
  = select0_state
      (vars (snd (run_calls false
                    [CallInit; CallSetSelect 0 true; CallSetSelect 1 true]
                    (boot_world
                       [WriteOk; WriteOk; WriteOk; WriteOk; WriteErr 5]
                       [])))) /\
  level1
    (dev (snd (run_calls false
                 [CallInit; CallSetSelect 0 true; CallSetSelect 1 true]
                 (boot_world [WriteOk; WriteOk; WriteOk; WriteOk; WriteErr 5]
                    []))))
  = select1_state
      (vars (snd (run_calls false
                    [CallInit; CallSetSelect 0 true; CallSetSelect 1 true]
                    (boot_world
                       [WriteOk; WriteOk; WriteOk; WriteOk; WriteErr 5]
                       [])))).
Proof.
  apply (tracked_state_mirrors_pins false
           [CallInit; CallSetSelect 0 true; CallSetSelect 1 true]
           [WriteOk; WriteOk; WriteOk; WriteOk; WriteErr 5] []).
  - repeat constructor; discriminate.
  - constructor.
Defined.

Lemma set_without_preemption_witness :
  let (ret, w') :=
    gpio_control_set_select false (line_number jtag_select1) false
      (line0_high_world false [] []) in
  ret = 0 /\
  log w' =
    log (line0_high_world false [] []) ++
    EvPinSet jtag_select1 (if false then 1 else 0) 0 ::
    (if false then [] else [EvPinGet jtag_select1 (if false then 1 else 0)])
  /\
  tracked jtag_select1 (vars w') = false /\
  sim_level (dev w') jtag_select1 = false /\
  tracked (other_of jtag_select1) (vars w') =
    tracked (other_of jtag_select1) (vars (line0_high_world false [] [])).
Proof.
  apply (set_without_preemption false jtag_select1 false
           (line0_high_world false [] [])).
  - reflexivity.
  - left. reflexivity.
  - split; constructor.
Defined.

Lemma failed_rollback_leaves_both_low_witness :
  let (ret, w') :=
    gpio_control_set_select false 1 true
      (line0_high_world false
         [WriteOk; WriteOk; WriteOk; WriteOk; WriteErr 5; WriteErr 11]
         [ReadOk; ReadOk; ReadOk; ReadOk]) in
  ret = - Z.pos 5 /\
  vars w' =
    {| select0_state := false; select1_state := false;
       initialized := true |} /\
  level0 (dev w') = false /\ level1 (dev w') = false /\
  log w' =
    log (line0_high_world false
           [WriteOk; WriteOk; WriteOk; WriteOk; WriteErr 5; WriteErr 11]
           [ReadOk; ReadOk; ReadOk; ReadOk]) ++
    [EvPinSet jtag_select0 0 0] ++
    (if false then [] else [EvPinGet jtag_select0 0]) ++
    [EvPinSet jtag_select1 1 (- Z.pos 5);
     EvPinSet jtag_select0 1 (- Z.pos 11)].
Proof.
  apply (failed_rollback_leaves_both_low false
           (line0_high_world false
              [WriteOk; WriteOk; WriteOk; WriteOk; WriteErr 5; WriteErr 11]
              [ReadOk; ReadOk; ReadOk; ReadOk])
           5%positive 11%positive [] []); reflexivity.
Defined.

Lemma rollback_after_lost_write_witness :
  let (ret, w') :=
    gpio_control_set_select false 1 true
      (line0_high_world false
         [WriteOk; WriteOk; WriteOk; WriteOk; WriteLost; WriteOk]
         [ReadOk; ReadOk; ReadOk; ReadOk; ReadOk]) in
  ret = - EIO /\
  vars w' =
    vars (line0_high_world false
            [WriteOk; WriteOk; WriteOk; WriteOk; WriteLost; WriteOk]
            [ReadOk; ReadOk; ReadOk; ReadOk; ReadOk]) /\
  level0 (dev w') = true /\ level1 (dev w') = false /\
  log w' =
    log (line0_high_world false
           [WriteOk; WriteOk; WriteOk; WriteOk; WriteLost; WriteOk]
           [ReadOk; ReadOk; ReadOk; ReadOk; ReadOk]) ++
    [EvPinSet jtag_select0 0 0; EvPinGet jtag_select0 0;
     EvPinSet jtag_select1 1 0; EvPinGet jtag_select1 0;
     EvPinSet jtag_select0 1 0].
Proof.
  apply (rollback_after_lost_write
           (line0_high_world false
              [WriteOk; WriteOk; WriteOk; WriteOk; WriteLost; WriteOk]
              [ReadOk; ReadOk; ReadOk; ReadOk; ReadOk])
           [] []); reflexivity.
Defined.

Lemma tracked_exclusion_all_runs_witness :
  tracked_exclusive
    (snd (run_calls false
            [CallInit; CallSetSelect 0 true; CallSetSelect 1 true]
            (boot_world [] [ReadOk; ReadOk; ReadOk; ReadOk; ReadErr 5]))).
Proof.
  apply (tracked_exclusion_all_runs false
           [CallInit; CallSetSelect 0 true; CallSetSelect 1 true]
           (boot_world [] [ReadOk; ReadOk; ReadOk; ReadOk; ReadErr 5])).
  split; [ reflexivity | vm_compute; repeat constructor ].
Defined.

Lemma pins_safe_when_readback_works_witness :
  pins_both_high
    (dev (snd (run_calls false
                 [CallInit; CallSetSelect 0 true; CallSetSelect 1 true]
                 (boot_world [WriteOk; WriteOk; WriteOk; WriteLost]
                    [ReadOk; ReadOk; ReadOk])))) = false /\
  Forall (fun sh => pins_both_high (snd sh) = false)
    (seen (snd (run_calls false
                  [CallInit; CallSetSelect 0 true; CallSetSelect 1 true]
                  (boot_world [WriteOk; WriteOk; WriteOk; WriteLost]
                     [ReadOk; ReadOk; ReadOk])))).
Proof.
  apply (pins_safe_when_readback_works
           [CallInit; CallSetSelect 0 true; CallSetSelect 1 true]
           [WriteOk; WriteOk; WriteOk; WriteLost] [ReadOk; ReadOk; ReadOk]).
  repeat constructor.
Defined.

Lemma boot_leaves_lines_low_witness :
  let (f, w') :=
    main_gpio_setup false (boot_world [WriteOk; WriteOk; WriteErr 5] []) in
  match f with
  | Return ret =>
      ret < 0 /\ vars w' = statics_at_boot /\
      exists new,
        log w' = log (boot_world [WriteOk; WriteOk; WriteErr 5] []) ++ new /\
        Forall (fun ev =>
                  match ev with EvPinSet _ _ _ => False | _ => True end) new
  | Next _ =>
      vars w' =
        {| select0_state := false; select1_state := false;
           initialized := true |}
  end.
Proof.
  apply (boot_leaves_lines_low false
           (boot_world [WriteOk; WriteOk; WriteErr 5] [])).
  reflexivity.
Defined.

Lemma boot_drives_pins_low_witness :
  let (f, w') := main_gpio_setup false pins_high_at_boot in
  match f with
  | Return ret => ret < 0
  | Next _ => level0 (dev w') = false /\ level1 (dev w') = false
  end.
Proof.
  apply (boot_drives_pins_low pins_high_at_boot).
  - reflexivity.
  - constructor.
Defined.

Lemma jtag_select_rejects_bad_usage_witness :
  exists msg,
    sub_jtag false atoi_decimal "native_sim"%string (select_subcmd jtag_select0) 2
      ["select0"%string; "2"%string] (ready_world false [] [], [])
    = (- EINVAL, (ready_world false [] [], [] ++ [shell_error msg []])).
Proof.
  apply (jtag_select_rejects_bad_usage false atoi_decimal "native_sim"%string
           jtag_select0 2 ["select0"%string; "2"%string] (ready_world false [] [])
           []).
  right. vm_compute. split; discriminate.
Defined.

Lemma jtag_select_sets_line_witness :
  let '(ret, (w', out')) :=
    sub_jtag false atoi_decimal "native_sim"%string (select_subcmd jtag_select1) 2
      ["select1"%string; "1"%string] (line0_high_world false [] [], []) in
  (ret, w') =
    gpio_control_set_select false (line_number jtag_select1)
      (atoi_decimal (argv1 ["select1"%string; "1"%string]) =? 1)
      (line0_high_world false [] []) /\
  ((ret = 0 /\
    tracked jtag_select1 (vars w') =
      (atoi_decimal (argv1 ["select1"%string; "1"%string]) =? 1) /\
    (atoi_decimal (argv1 ["select1"%string; "1"%string]) = 1 ->
     tracked (other_of jtag_select1) (vars w') = false) /\
    exists fmt,
      out' =
        [] ++ [shell_print fmt
                 [ArgInt (atoi_decimal (argv1 ["select1"%string; "1"%string]));
                  ArgInt (atoi_decimal (argv1 ["select1"%string; "1"%string]))]]) \/
   (ret < 0 /\
    tracked jtag_select1 (vars w') =
      tracked jtag_select1 (vars (line0_high_world false [] [])) /\
    exists fmt, out' = [] ++ [shell_error fmt [ArgInt ret]])).
Proof.
  apply (jtag_select_sets_line false atoi_decimal "native_sim"%string jtag_select1
           ["select1"%string; "1"%string] (line0_high_world false [] []) []).
  right. reflexivity.
Defined.

Lemma jtag_commands_keep_exclusion_witness :
  tracked_exclusive
    (fst (snd (run_jtag false atoi_decimal "native_sim"%string
                 [(sub_select0, ["select0"%string; "1"%string]);
                  (sub_toggle1, ["toggle1"%string]);
                  (sub_status, ["status"%string])]
                 (ready_world false [] [], [])))).
Proof.
  apply (jtag_commands_keep_exclusion false atoi_decimal "native_sim"%string
           [(sub_select0, ["select0"%string; "1"%string]);
            (sub_toggle1, ["toggle1"%string]);
            (sub_status, ["status"%string])]
           (ready_world false [] [], [])).
  split; [ reflexivity | vm_compute; repeat constructor ].
Defined.

Lemma received_is_request_prefix_witness :
  received
    (accumulate_all 32
       [(HTTP_SERVER_DATA_MORE, repeat Byte.x41 100);
        (HTTP_SERVER_DATA_FINAL, repeat Byte.x42 100)]
       request_statics_at_boot)
  = firstn (Z.to_nat REQUEST_BUFFER_SIZE)
      (concat (map snd
                 [(HTTP_SERVER_DATA_MORE, repeat Byte.x41 100);
                  (HTTP_SERVER_DATA_FINAL, repeat Byte.x42 100)])).
Proof.
  apply (received_is_request_prefix 32).
  - lia.
  - repeat constructor; discriminate.
  - split; cbn; unfold REQUEST_BUFFER_SIZE; lia.
  - reflexivity.
Defined.

Lemma request_buffers_stay_in_bounds_witness :
  request_statics_ok
    (select_statics
       (run_http false 32 (parse_select_as 2 0 1) (parse_toggle_as 1 0)
          (encode_as 0)
          [(call_select HTTP_SERVER_DATA_MORE (repeat Byte.x41 200),
            fresh_response);
           (call_toggle HTTP_SERVER_DATA_FINAL (repeat Byte.x42 300),
            fresh_response)]
          (http_at_boot (ready_world false [] [])))) /\
  request_statics_ok
    (toggle_statics
       (run_http false 32 (parse_select_as 2 0 1) (parse_toggle_as 1 0)
          (encode_as 0)
          [(call_select HTTP_SERVER_DATA_MORE (repeat Byte.x41 200),
            fresh_response);
           (call_toggle HTTP_SERVER_DATA_FINAL (repeat Byte.x42 300),
            fresh_response)]
          (http_at_boot (ready_world false [] [])))).
Proof.
  apply (request_buffers_stay_in_bounds false 32 (parse_select_as 2 0 1)
           (parse_toggle_as 1 0) (encode_as 0)).
  - lia.
  - reflexivity.
  - reflexivity.
  - split; cbn; unfold REQUEST_BUFFER_SIZE; lia.
  - split; cbn; unfold REQUEST_BUFFER_SIZE; lia.
Defined.

Lemma select_rejects_invalid_request_witness :
  let '(ret, resp, s') :=
    select_handler false 32 (parse_select_as 2 0 4) (encode_as 0)
      HTTP_SERVER_DATA_FINAL [Byte.x7b; Byte.x7d] fresh_response
      (http_at_boot (ready_world false [] [])) in
  ret = 0 /\ gpio s' = gpio (http_at_boot (ready_world false [] [])) /\
  status resp = Some HTTP_400_BAD_REQUEST /\
  final_chunk resp = true /\
  body resp = body_json_response_buffer /\
  body_len resp = Z.of_nat (String.length (json_response_buffer s')) /\
  request_offset (select_statics s') = 0.
Proof.
  apply (select_rejects_invalid_request false 32 (parse_select_as 2 0 4)
           (encode_as 0) [Byte.x7b; Byte.x7d] fresh_response
           (http_at_boot (ready_world false [] []))
           2 {| sel_line := 0; sel_connector := 4 |} [Byte.x7b; Byte.x7d]).
  - reflexivity.
  - right. right. right. right. cbn. lia.
Defined.

Lemma select_valid_request_witness :
  let '(ret, resp, s') :=
    select_handler false 32 (parse_select_as 2 1 3) (encode_as 0)
      HTTP_SERVER_DATA_FINAL [Byte.x7b; Byte.x7d] fresh_response
      (http_at_boot (line0_high_world false [] [])) in
  ret = 0 /\
  gpio s' =
    snd (gpio_control_set_select false (line_number jtag_select1)
           (Z.odd (sel_connector {| sel_line := 1; sel_connector := 3 |}))
           (gpio (http_at_boot (line0_high_world false [] [])))) /\
  status resp =
    Some
      (if fst (gpio_control_set_select false (line_number jtag_select1)
                 (Z.odd (sel_connector
                           {| sel_line := 1; sel_connector := 3 |}))
                 (gpio (http_at_boot (line0_high_world false [] [])))) <? 0
       then HTTP_500_INTERNAL_SERVER_ERROR
       else
         if fst (encode_as 0
                   (select_response true
                      (select0_state
                         (vars
                            (snd (gpio_control_set_select false
                                    (line_number jtag_select1)
                                    (Z.odd (sel_connector
                                              {| sel_line := 1;
                                                 sel_connector := 3 |}))
                                    (gpio (http_at_boot
                                             (line0_high_world false []
                                                [])))))))
                      (select1_state
                         (vars
                            (snd (gpio_control_set_select false
                                    (line_number jtag_select1)
                                    (Z.odd (sel_connector
                                              {| sel_line := 1;
                                                 sel_connector := 3 |}))
                                    (gpio (http_at_boot
                                             (line0_high_world false []
                                                []))))))))
                   (json_response_buffer
                      (http_at_boot (line0_high_world false [] [])))) =? 0
         then HTTP_200_OK
         else HTTP_500_INTERNAL_SERVER_ERROR) /\
  (status resp = Some HTTP_200_OK ->
   tracked jtag_select1 (vars (gpio s')) =
     Z.odd (sel_connector {| sel_line := 1; sel_connector := 3 |}) /\
   json_response_buffer s' =
     snd (encode_as 0
            (select_response true
               (select0_state
                  (vars
                     (snd (gpio_control_set_select false
                             (line_number jtag_select1)
                             (Z.odd (sel_connector
                                       {| sel_line := 1;
                                          sel_connector := 3 |}))
                             (gpio (http_at_boot
                                      (line0_high_world false [] [])))))))
               (select1_state
                  (vars
                     (snd (gpio_control_set_select false
                             (line_number jtag_select1)
                             (Z.odd (sel_connector
                                       {| sel_line := 1;
                                          sel_connector := 3 |}))
                             (gpio (http_at_boot
                                      (line0_high_world false [] []))))))))
            (json_response_buffer
               (http_at_boot (line0_high_world false [] []))))).
Proof.
  apply (select_valid_request false 32 (parse_select_as 2 1 3) (encode_as 0)
           jtag_select1 [Byte.x7b; Byte.x7d] fresh_response
           (http_at_boot (line0_high_world false [] []))
           2 {| sel_line := 1; sel_connector := 3 |} [Byte.x7b; Byte.x7d]).
  - reflexivity.
  - lia.
  - reflexivity.
  - cbn. lia.
Defined.

Lemma toggle_valid_request_witness :
  let '(ret, resp, s') :=
    toggle_handler false 32 (parse_toggle_as 1 0) (encode_as 7)
      HTTP_SERVER_DATA_FINAL [Byte.x7b; Byte.x7d] fresh_response
      (http_at_boot (ready_world false [] [])) in
  ret = 0 /\
  gpio s' =
    snd (gpio_control_toggle_select false (line_number jtag_select0)
           (gpio (http_at_boot (ready_world false [] [])))) /\
  ((fst (gpio_control_toggle_select false (line_number jtag_select0)
           (gpio (http_at_boot (ready_world false [] [])))) < 0 /\
    status resp = Some HTTP_500_INTERNAL_SERVER_ERROR /\
    tracked jtag_select0 (vars (gpio s')) =
      tracked jtag_select0
        (vars (gpio (http_at_boot (ready_world false [] []))))) \/
   (fst (gpio_control_toggle_select false (line_number jtag_select0)
           (gpio (http_at_boot (ready_world false [] [])))) = 0 /\
    tracked jtag_select0 (vars (gpio s')) =
      negb (tracked jtag_select0
              (vars (gpio (http_at_boot (ready_world false [] []))))) /\
    status resp =
      Some
        (if fst (encode_as 7
                   (toggle_response true (line_number jtag_select0)
                      (negb (tracked jtag_select0
                               (vars (gpio (http_at_boot
                                              (ready_world false [] [])))))))
                   (json_response_buffer
                      (http_at_boot (ready_world false [] [])))) =? 0
         then HTTP_200_OK
         else HTTP_500_INTERNAL_SERVER_ERROR) /\
    (fst (encode_as 7
            (toggle_response true (line_number jtag_select0)
               (negb (tracked jtag_select0
                        (vars (gpio (http_at_boot
                                       (ready_world false [] [])))))))
            (json_response_buffer
               (http_at_boot (ready_world false [] [])))) = 0 ->
     json_response_buffer s' =
       snd (encode_as 7
              (toggle_response true (line_number jtag_select0)
                 (negb (tracked jtag_select0
                          (vars (gpio (http_at_boot
                                         (ready_world false [] [])))))))
              (json_response_buffer
                 (http_at_boot (ready_world false [] []))))))).
Proof.
  apply (toggle_valid_request false 32 (parse_toggle_as 1 0) (encode_as 7)
           jtag_select0 [Byte.x7b; Byte.x7d] fresh_response
           (http_at_boot (ready_world false [] []))
           1 {| tog_line := 0 |} [Byte.x7b; Byte.x7d]).
  - reflexivity.
  - lia.
  - reflexivity.
Defined.

Lemma http_requests_keep_exclusion_witness :
  tracked_exclusive
    (gpio
       (run_http false 32 (parse_select_as 2 1 1) (parse_toggle_as 1 0)
          (encode_as 0)
          [(call_toggle HTTP_SERVER_DATA_FINAL [Byte.x7b; Byte.x7d],
            fresh_response);
           (call_select HTTP_SERVER_DATA_FINAL [Byte.x7b; Byte.x7d],
            fresh_response)]
          (http_at_boot (ready_world false [] [])))).
Proof.
  apply (http_requests_keep_exclusion false 32 (parse_select_as 2 1 1)
           (parse_toggle_as 1 0) (encode_as 0)).
  split; [ reflexivity | vm_compute; repeat constructor ].
Defined.
